(** * Open Notebook: chat pipeline, context selection and notebook edges

  A shallow embedding of
    - [api/models.py]            ([SourceCreate.validate_notebook_fields]),
    - [open_notebook/graphs/chat.py] ([call_model_with_messages]),
    - [api/routers/notebooks.py] ([add_source_to_notebook],
                                  [remove_source_from_notebook]),
    - [api/routers/chat.py]      (session endpoints, [execute_chat],
                                  [build_context]).

  Part I holds the definitions, Part II the theorems. *)

From Stdlib Require Import Ascii String ZArith.
From stdpp Require Import base option list gmap strings pretty.

Local Open Scope string_scope.

(* ===================================================================== *)
(** * Part I: definitions                                                 *)
(* ===================================================================== *)

(** ** Python values and idioms used by the handlers *)
Module Py.

Definition NL : string := String "010"%char "".
Definition DQ : string := String "034"%char "".

(** A dictionary value that is formatted into an f-string: a string, or
    Python's [None] (which an f-string prints as the word None). *)
Inductive pyval := PyStr (s : string) | PyNone.

Definition py_format (v : pyval) : string :=
  match v with PyStr s => s | PyNone => "None" end.

(** [d.get(key, default)] where [field] is the entry of [key], if any. *)
Definition dict_get (field : option pyval) (default : string) : pyval :=
  match field with Some v => v | None => PyStr default end.

(** Truth value of a [str]. *)
Definition str_truthy (s : string) : bool :=
  match s with EmptyString => false | String _ _ => true end.

(** Truth value of an [Optional[str]]. *)
Definition truthy (o : option string) : bool :=
  match o with Some s => str_truthy s | None => false end.

(** [a or b] on [Optional[str]]. *)
Definition py_or (a b : option string) : option string :=
  if truthy a then a else b.

(** [s.startswith(p)] *)
Definition startswith (s p : string) : bool := String.prefix p s.

(** [needle in s] on strings. *)
Fixpoint contains (needle s : string) : bool :=
  String.prefix needle s
  || match s with
     | EmptyString => false
     | String _ s' => contains needle s'
     end.

(** Exceptions the handlers tell apart. *)
Inductive exn :=
| NotFoundError (msg : string)
| HTTPException (status : nat) (detail : string)
| ValueError (msg : string)
| OtherError (msg : string).

(** [str(e)]; an [HTTPException] prints as its status, a colon and its
    detail. *)
Definition exn_str (e : exn) : string :=
  match e with
  | NotFoundError m => m
  | HTTPException st d => pretty st +:+ ": " +:+ d
  | ValueError m => m
  | OtherError m => m
  end.

(** What a route handler hands back to the web framework. *)
Inductive response (A : Type) :=
| Ok (a : A)
| Fail (status : nat) (detail : string).
Arguments Ok {A} a.
Arguments Fail {A} status detail.

End Py.
Export Py.

(** ** [api/models.py]: the source-creation request *)
Module Models.

Record SourceCreate := {
  notebook_id : option string;
  notebooks : option (list string);
  type_ : string;
  url : option string;
  file_path : option string;
  content : option string;
  title : option string;
  transformations : option (list string);
  embed : bool;
  delete_source : bool;
  async_processing : bool;
}.

Definition set_notebooks (l : list string) (r : SourceCreate) : SourceCreate :=
  {| notebook_id := notebook_id r;
     notebooks := Some l;
     type_ := type_ r;
     url := url r;
     file_path := file_path r;
     content := content r;
     title := title r;
     transformations := transformations r;
     embed := embed r;
     delete_source := delete_source r;
     async_processing := async_processing r |}.

Definition both_fields_message : string :=
  "Cannot specify both 'notebook_id' and 'notebooks'. Use 'notebooks' for multi-notebook support.".

(** The [model_validator(mode="after")] of [SourceCreate]: three
    statements in sequence, each on the record left by the previous. *)
Definition validate_notebook_fields (self : SourceCreate) : exn + SourceCreate :=
  match notebook_id self, notebooks self with
  | Some _, Some _ => inl (ValueError both_fields_message)
  | _, _ =>
      let self1 :=
        match notebook_id self with
        | Some nb => set_notebooks [nb] self
        | None => self
        end in
      let self2 :=
        match notebooks self1 with
        | None => set_notebooks [] self1
        | Some _ => self1
        end in
      inr self2
  end.

End Models.

(** ** Records of [open_notebook.domain], as the handlers read them *)
Module Domain.

Record Notebook := {
  nb_id : option string;
  nb_name : string;
  nb_description : string;
  nb_archived : option bool;
  nb_created : string;
  nb_updated : string;
  nb_custom_system_prompt : option string;
  nb_active_prompt_id : option string;
}.

Record SystemPrompt := {
  sp_id : option string;
  sp_name : string;
  sp_content : string;
}.

Record ChatSession := {
  cs_id : option string;
  cs_title : option string;
  cs_model_override : option string;
  cs_created : option string;
  cs_updated : option string;
}.

(** A LangChain message as the handlers inspect it: [getattr(msg, "id", ..)],
    [hasattr(msg, "type")], [hasattr(msg, "content")] and [str(msg)]. An
    attribute that is present holds text. *)
Record Message := {
  m_id : option string;
  m_type : option string;
  m_content : option string;
  m_str : string;
}.

(** The dictionaries of a chat context: a field is [None] when the key is
    absent. *)
Record Insight := {
  in_id : option pyval;
  in_insight_type : option pyval;
  in_content : option pyval;
}.

Record SourceContext := {
  sc_id : option pyval;
  sc_title : option pyval;
  sc_full_text : option pyval;
  sc_insights : option (list Insight);
}.

Record NoteContext := {
  nc_id : option pyval;
  nc_title : option pyval;
  nc_content : option pyval;
}.

Record ContextData := {
  cd_sources : option (list SourceContext);
  cd_notes : option (list NoteContext);
}.

(** The context configuration of a request: per source or note id, in the
    order of the dictionary, a status string. [cc_other_keys] tells whether
    the dictionary has keys besides "sources" and "notes" (they only count
    for its truth value). *)
Record ContextConfig := {
  cc_sources : option (list (string * string));
  cc_notes : option (list (string * string));
  cc_other_keys : bool;
}.

End Domain.
Export Domain.

(** ** [open_notebook/graphs/chat.py] *)
Module Graph.

(** [include_citations]: the outer [None] is an absent key, the inner one
    Python's [None]. *)
Record ThreadState := {
  ts_messages : list Message;
  ts_notebook : option Notebook;
  ts_context : option ContextData;
  ts_context_config : option ContextConfig;
  ts_model_override : option string;
  ts_custom_system_prompt : option string;
  ts_include_citations : option (option bool);
}.

(** The ["configurable"] dictionary of a [RunnableConfig]. *)
Record RunnableConfig := {
  thread_id : option string;
  model_id : option string;
}.

(** The arguments of one call of [provision_langchain_model]. *)
Record Provisioning := {
  pv_content : string;
  pv_model_id : option string;
  pv_default_type : string;
  pv_max_tokens : Z;
}.

(** What the graph module and its callers import: the prompt template
    engine, the model provisioning of [open_notebook.ai.provision], the
    language model, [clean_thinking_content], LangChain's [HumanMessage]
    and LangGraph's [add_messages] reducer. [payload_str] is
    [str(payload)], the payload being the system message followed by the
    messages of the state. *)
Class Externals := {
  Model : Type;
  render_chat_system : ThreadState -> string;
  payload_str : string -> list Message -> string;
  provision_langchain_model : Provisioning -> Model;
  model_invoke : Model -> string -> list Message -> Message;
  clean_thinking_content : string -> string;
  HumanMessage : string -> Message;
  add_messages : list Message -> list Message -> list Message;
}.

Definition reminder : string :=
  "IMPORTANT: You must follow the role and behavior described above in your current response, regardless of what role you may have taken in previous messages.".

Definition citing_instructions_text : string :=
  NL +:+ "# CITING INSTRUCTIONS" +:+ NL
  +:+ "If your answer is based on any item in the context above, add references to the documents by including the document ID in brackets like this: [document_id]." +:+ NL
  +:+ NL
  +:+ "Example: According to the regulations [source_insight:abc123], cosmetic labeling must include..." +:+ NL
  +:+ NL
  +:+ "IMPORTANT:" +:+ NL
  +:+ "- Use document IDs exactly as provided in the context" +:+ NL
  +:+ "- IDs have prefixes like " +:+ DQ +:+ "source:" +:+ DQ +:+ ", "
      +:+ DQ +:+ "source_insight:" +:+ DQ +:+ ", " +:+ DQ +:+ "note:" +:+ DQ +:+ NL
  +:+ "- Do not make up or modify document IDs" +:+ NL.

(** [state.get("include_citations", True)], then its truth value. *)
Definition get_include_citations (state : ThreadState) : bool :=
  match ts_include_citations state with
  | None => true
  | Some None => false
  | Some (Some b) => b
  end.

(** Body of the loop over [source["insights"]] (custom-prompt branch). *)
Definition add_insight (include_citations : bool) (context_str : string)
    (insight : Insight) : string :=
  let insight_id := dict_get (in_id insight) "unknown" in
  let insight_type := dict_get (in_insight_type insight) "Insight" in
  if include_citations then
    context_str +:+ (NL +:+ "### " +:+ py_format insight_type +:+ " [ID: "
                     +:+ py_format insight_id +:+ "]" +:+ NL
                     +:+ py_format (dict_get (in_content insight) "") +:+ NL)
  else
    context_str +:+ (NL +:+ "### " +:+ py_format insight_type +:+ NL
                     +:+ py_format (dict_get (in_content insight) "") +:+ NL).

(** Body of the loop over [context_data["sources"]] (custom-prompt branch). *)
Definition add_source (include_citations : bool) (context_str : string)
    (source : SourceContext) : string :=
  let source_id := dict_get (sc_id source) "unknown" in
  let context_str :=
    if include_citations then
      context_str +:+ (NL +:+ NL +:+ "## Source: "
                       +:+ py_format (dict_get (sc_title source) "Unknown")
                       +:+ " [ID: " +:+ py_format source_id +:+ "]" +:+ NL)
    else
      context_str +:+ (NL +:+ NL +:+ "## Source: "
                       +:+ py_format (dict_get (sc_title source) "Unknown") +:+ NL) in
  let context_str :=
    match sc_full_text source with
    | Some _ =>
        context_str +:+ (NL +:+ "### Full Content" +:+ NL
                         +:+ py_format (dict_get (sc_full_text source) "") +:+ NL)
    | None => context_str
    end in
  match sc_insights source with
  | Some insights => fold_left (add_insight include_citations) insights context_str
  | None => context_str
  end.

(** Body of the loop over [context_data["notes"]] (custom-prompt branch). *)
Definition add_note (include_citations : bool) (context_str : string)
    (note : NoteContext) : string :=
  let note_id := dict_get (nc_id note) "unknown" in
  if include_citations then
    context_str +:+ (NL +:+ NL +:+ "## Note: "
                     +:+ py_format (dict_get (nc_title note) "Unknown")
                     +:+ " [ID: " +:+ py_format note_id +:+ "]" +:+ NL
                     +:+ py_format (dict_get (nc_content note) "") +:+ NL)
  else
    context_str +:+ (NL +:+ NL +:+ "## Note: "
                     +:+ py_format (dict_get (nc_title note) "Unknown") +:+ NL
                     +:+ py_format (dict_get (nc_content note) "") +:+ NL).

(** [if context_data and "sources" in context_data: for source in ...] *)
Definition sources_of (context_data : option ContextData) : list SourceContext :=
  match context_data with
  | Some cd => match cd_sources cd with Some l => l | None => [] end
  | None => []
  end.

Definition notes_of (context_data : option ContextData) : list NoteContext :=
  match context_data with
  | Some cd => match cd_notes cd with Some l => l | None => [] end
  | None => []
  end.

(** The context string of the custom-prompt branch: sources first, then
    notes, each appended to the same accumulator. *)
Definition custom_context_str (include_citations : bool)
    (context_data : option ContextData) : string :=
  let context_str := "" in
  let context_str :=
    fold_left (add_source include_citations) (sources_of context_data) context_str in
  fold_left (add_note include_citations) (notes_of context_data) context_str.

(** The default-template branch without citations builds its own context
    string, never showing an ID. *)
Definition add_insight_plain (context_str : string) (insight : Insight) : string :=
  let insight_type := dict_get (in_insight_type insight) "Insight" in
  context_str +:+ (NL +:+ "### " +:+ py_format insight_type +:+ NL
                   +:+ py_format (dict_get (in_content insight) "") +:+ NL).

Definition add_source_plain (context_str : string) (source : SourceContext) : string :=
  let context_str :=
    context_str +:+ (NL +:+ NL +:+ "## Source: "
                     +:+ py_format (dict_get (sc_title source) "Unknown") +:+ NL) in
  let context_str :=
    match sc_full_text source with
    | Some _ =>
        context_str +:+ (NL +:+ "### Full Content" +:+ NL
                         +:+ py_format (dict_get (sc_full_text source) "") +:+ NL)
    | None => context_str
    end in
  match sc_insights source with
  | Some insights => fold_left add_insight_plain insights context_str
  | None => context_str
  end.

Definition add_note_plain (context_str : string) (note : NoteContext) : string :=
  context_str +:+ (NL +:+ NL +:+ "## Note: "
                   +:+ py_format (dict_get (nc_title note) "Unknown") +:+ NL
                   +:+ py_format (dict_get (nc_content note) "") +:+ NL).

Definition plain_context_str (context_data : option ContextData) : string :=
  let context_str := fold_left add_source_plain (sources_of context_data) "" in
  fold_left add_note_plain (notes_of context_data) context_str.

Section Node.
Context `{Externals}.

(** The system prompt of [call_model_with_messages]. *)
Definition system_prompt (state : ThreadState) : string :=
  let custom_prompt := ts_custom_system_prompt state in
  let include_citations := get_include_citations state in
  if truthy custom_prompt then
    let custom := default "" custom_prompt in
    let context_str := custom_context_str include_citations (ts_context state) in
    if str_truthy context_str then
      let citing_instructions :=
        if include_citations then citing_instructions_text else "" in
      custom +:+ NL +:+ NL +:+ reminder +:+ NL +:+ NL
      +:+ "# Context Information" +:+ NL
      +:+ context_str +:+ NL
      +:+ citing_instructions
    else
      custom +:+ NL +:+ NL +:+ reminder
  else if include_citations then
    render_chat_system state
  else
    let context_str := plain_context_str (ts_context state) in
    if str_truthy context_str then
      "You are a helpful AI assistant. Use the context information below to answer questions accurately."
      +:+ NL +:+ NL +:+ "# Context Information" +:+ NL
      +:+ context_str +:+ NL +:+ NL
      +:+ "Please provide your answers based on the context provided. Respond naturally without including document references or IDs."
    else
      "You are a helpful AI assistant.".

(** [config.get("configurable", {}).get("model_id") or state.get("model_override")] *)
Definition resolve_model_id (state : ThreadState) (config : RunnableConfig)
  : option string :=
  py_or (model_id config) (ts_model_override state).

(** The call made by [run_in_new_loop], taken when an event loop is
    already running. *)
Definition run_in_new_loop (system : string) (messages : list Message)
    (model_id : option string) : Provisioning :=
  {| pv_content := payload_str system messages;
     pv_model_id := model_id;
     pv_default_type := "chat";
     pv_max_tokens := 8192 |}.

(** The call wrapped by [asyncio.run], taken on [RuntimeError] (no event
    loop is running). *)
Definition asyncio_run (system : string) (messages : list Message)
    (model_id : option string) : Provisioning :=
  {| pv_content := payload_str system messages;
     pv_model_id := model_id;
     pv_default_type := "chat";
     pv_max_tokens := 8192 |}.

(** The provisioning call of the node; [loop_running] says whether
    [asyncio.get_running_loop()] succeeds. *)
Definition provisioning (loop_running : bool) (state : ThreadState)
    (config : RunnableConfig) : Provisioning :=
  let system := system_prompt state in
  let model_id := resolve_model_id state config in
  if loop_running then run_in_new_loop system (ts_messages state) model_id
  else asyncio_run system (ts_messages state) model_id.

(** The node: the message it returns under the key "messages". *)
Definition call_model_with_messages (loop_running : bool) (state : ThreadState)
    (config : RunnableConfig) : Message :=
  let system := system_prompt state in
  let model := provision_langchain_model (provisioning loop_running state config) in
  let ai_message := model_invoke model system (ts_messages state) in
  let content := default (m_str ai_message) (m_content ai_message) in
  let cleaned_content := clean_thinking_content content in
  {| m_id := m_id ai_message;
     m_type := m_type ai_message;
     m_content := Some cleaned_content;
     m_str := m_str ai_message |}.

End Node.

(** *** The layout of the custom-prompt system message, section by section *)

Fixpoint join (l : list string) : string :=
  match l with
  | [] => ""
  | s :: l' => s +:+ join l'
  end.

(** The [ [ID: ..]] tag that follows a title or an insight type; it is
    there only with citations. *)
Definition id_tag (include_citations : bool) (id : option pyval) : string :=
  if include_citations then " [ID: " +:+ py_format (dict_get id "unknown") +:+ "]"
  else "".

Definition insight_section (include_citations : bool) (insight : Insight) : string :=
  NL +:+ "### " +:+ py_format (dict_get (in_insight_type insight) "Insight")
  +:+ id_tag include_citations (in_id insight) +:+ NL
  +:+ py_format (dict_get (in_content insight) "") +:+ NL.

Definition full_text_section (source : SourceContext) : string :=
  match sc_full_text source with
  | Some text => NL +:+ "### Full Content" +:+ NL +:+ py_format text +:+ NL
  | None => ""
  end.

Definition source_section (include_citations : bool) (source : SourceContext)
  : string :=
  NL +:+ NL +:+ "## Source: " +:+ py_format (dict_get (sc_title source) "Unknown")
  +:+ id_tag include_citations (sc_id source) +:+ NL
  +:+ full_text_section source
  +:+ join (insight_section include_citations <$> default [] (sc_insights source)).

Definition note_section (include_citations : bool) (note : NoteContext) : string :=
  NL +:+ NL +:+ "## Note: " +:+ py_format (dict_get (nc_title note) "Unknown")
  +:+ id_tag include_citations (nc_id note) +:+ NL
  +:+ py_format (dict_get (nc_content note) "") +:+ NL.

Definition context_header : string :=
  NL +:+ NL +:+ reminder +:+ NL +:+ NL +:+ "# Context Information" +:+ NL.

End Graph.

(** ** The database and the checkpoint store *)
Module Db.

(** A graph edge [RELATE a->edge->b]: its [in] is [a], its [out] is [b]. *)
Record Edge := {
  edge_in : string;
  edge_out : string;
}.

(** A source or note of the domain layer, as far as the handlers observe
    it: its id and what [get_context] returns for either size ([None] when
    the call raises). *)
Record Source := {
  so_id : option string;
  so_short : option SourceContext;
  so_long : option SourceContext;
}.

Record Note := {
  no_id : option string;
  no_short : option NoteContext;
  no_long : option NoteContext;
}.

Record Store := {
  notebook : gmap string Notebook;
  source : gmap string Source;
  note : gmap string Note;
  system_prompt : gmap string SystemPrompt;
  chat_session : gmap string ChatSession;
  reference : list Edge;
  refers_to : list Edge;
  checkpoints : gmap string Graph.ThreadState;
}.

Definition set_reference (l : list Edge) (st : Store) : Store :=
  {| notebook := notebook st; source := source st; note := note st;
     system_prompt := system_prompt st; chat_session := chat_session st;
     reference := l; refers_to := refers_to st; checkpoints := checkpoints st |}.

Definition set_refers_to (l : list Edge) (st : Store) : Store :=
  {| notebook := notebook st; source := source st; note := note st;
     system_prompt := system_prompt st; chat_session := chat_session st;
     reference := reference st; refers_to := l; checkpoints := checkpoints st |}.

Definition set_chat_session (m : gmap string ChatSession) (st : Store) : Store :=
  {| notebook := notebook st; source := source st; note := note st;
     system_prompt := system_prompt st; chat_session := m;
     reference := reference st; refers_to := refers_to st;
     checkpoints := checkpoints st |}.

Definition set_checkpoints (m : gmap string Graph.ThreadState) (st : Store) : Store :=
  {| notebook := notebook st; source := source st; note := note st;
     system_prompt := system_prompt st; chat_session := chat_session st;
     reference := reference st; refers_to := refers_to st; checkpoints := m |}.

(** How [ObjectModel.get] reports a record that is not there: the handlers
    provide for both a falsy result and a [NotFoundError]. *)
Inductive missing_signal := ReturnsNone | RaisesNotFoundError.

(** What the routers import from [open_notebook.database.repository],
    [open_notebook.domain] and [open_notebook.utils]. *)
Class DomainLayer := {
  on_missing : missing_signal;
  not_found_message : string -> string;
  ensure_record_id : string -> string;
  new_session_id : Store -> string;
  get_active_prompt : Store -> Notebook -> exn + option SystemPrompt;
  get_sources : Store -> Notebook -> exn + list Source;
  get_notes : Store -> Notebook -> exn + list Note;
  source_context_str : SourceContext -> string;
  note_context_str : NoteContext -> string;
  token_count : option (string -> nat);
}.

(** Handlers run in a state-and-exception monad over the store. *)
Definition M (A : Type) : Type := Store -> (exn + A) * Store.

#[global] Instance M_ret : MRet M := fun A a st => (inr a, st).

#[global] Instance M_bind : MBind M := fun A B f m st =>
  match m st with
  | (inr a, st') => f a st'
  | (inl e, st') => (inl e, st')
  end.

Definition raise {A : Type} (e : exn) : M A := fun st => (inl e, st).

Definition get_store : M Store := fun st => (inr st, st).

Definition modify_store (f : Store -> Store) : M unit := fun st => (inr tt, f st).

(** [try: body  except Exception: handler] *)
Definition try_except {A : Type} (body : M A) (handler : exn -> M A) : M A :=
  fun st =>
    match body st with
    | (inr a, st') => (inr a, st')
    | (inl e, st') => handler e st'
    end.

(** Lift a call that either raises or returns. *)
Definition lift {A : Type} (r : exn + A) : M A :=
  match r with inl e => raise e | inr a => mret a end.

(** [if not obj: raise e] *)
Definition require {A : Type} (o : option A) (e : exn) : M A :=
  match o with Some a => mret a | None => raise e end.

Section Queries.
Context `{DomainLayer}.

(** [await cls.get(id)] on a table. *)
Definition table_get {A : Type} (table : Store -> gmap string A) (id : string)
  : M (option A) :=
  st ← get_store;
  match table st !! id with
  | Some a => mret (Some a)
  | None =>
      match on_missing with
      | ReturnsNone => mret None
      | RaisesNotFoundError => raise (NotFoundError (not_found_message id))
      end
  end.

Definition Notebook_get : string -> M (option Notebook) := table_get notebook.
Definition Source_get : string -> M (option Source) := table_get source.
Definition Note_get : string -> M (option Note) := table_get note.
Definition SystemPrompt_get : string -> M (option SystemPrompt) := table_get system_prompt.
Definition ChatSession_get : string -> M (option ChatSession) := table_get chat_session.

(** [SELECT * FROM edge WHERE out = $o AND in = $i] *)
Definition select_edges (edges : list Edge) (o i : string) : list Edge :=
  filter (fun e => edge_out e = o /\ edge_in e = i) edges.

(** [DELETE FROM edge WHERE out = $o AND in = $i] *)
Definition delete_edges (edges : list Edge) (o i : string) : list Edge :=
  filter (fun e => ~ (edge_out e = o /\ edge_in e = i)) edges.

(** [RELATE $a->edge->$b] *)
Definition relate (edges : list Edge) (a b : string) : list Edge :=
  app edges [{| edge_in := a; edge_out := b |}].

(** [SELECT out FROM refers_to WHERE in = $session_id] *)
Definition select_out_where_in (edges : list Edge) (i : string) : list string :=
  edge_out <$> filter (fun e => edge_in e = i) edges.

End Queries.

End Db.
Export Db.

(** ** [api/routers/notebooks.py] *)
Module Notebooks.
Section Handlers.
Context `{DomainLayer}.

Definition add_source_to_notebook_body (notebook_id source_id : string) : M string :=
  notebook ← Notebook_get notebook_id;
  _ ← require notebook (HTTPException 404 "Notebook not found");
  source ← Source_get source_id;
  _ ← require source (HTTPException 404 "Source not found");
  st ← get_store;
  (* SELECT * FROM reference WHERE out = $source_id AND in = $notebook_id *)
  let existing_ref :=
    select_edges (reference st)
      (ensure_record_id source_id) (ensure_record_id notebook_id) in
  _ ← match existing_ref with
      | [] =>
          (* RELATE $source_id->reference->$notebook_id *)
          modify_store (fun st =>
            set_reference
              (relate (reference st)
                 (ensure_record_id source_id) (ensure_record_id notebook_id)) st)
      | _ :: _ => mret tt
      end;
  mret "Source linked to notebook successfully".

Definition add_source_to_notebook (notebook_id source_id : string) (st : Store)
  : response string * Store :=
  match add_source_to_notebook_body notebook_id source_id st with
  | (inr a, st') => (Ok a, st')
  | (inl (HTTPException status detail), st') => (Fail status detail, st')
  | (inl e, st') =>
      (Fail 500 ("Error linking source to notebook: " +:+ exn_str e), st')
  end.

Definition remove_source_from_notebook_body (notebook_id source_id : string)
  : M string :=
  notebook ← Notebook_get notebook_id;
  _ ← require notebook (HTTPException 404 "Notebook not found");
  (* DELETE FROM reference WHERE out = $notebook_id AND in = $source_id *)
  _ ← modify_store (fun st =>
        set_reference
          (delete_edges (reference st)
             (ensure_record_id notebook_id) (ensure_record_id source_id)) st);
  mret "Source removed from notebook successfully".

Definition remove_source_from_notebook (notebook_id source_id : string) (st : Store)
  : response string * Store :=
  match remove_source_from_notebook_body notebook_id source_id st with
  | (inr a, st') => (Ok a, st')
  | (inl (HTTPException status detail), st') => (Fail status detail, st')
  | (inl e, st') =>
      (Fail 500 ("Error removing source from notebook: " +:+ exn_str e), st')
  end.

(** The reference edges that link a source to a notebook: those written by
    [RELATE $source_id->reference->$notebook_id], which the notebook
    listing counts with [count(<-reference.in)]. *)
Definition source_edges (st : Store) (notebook_id source_id : string) : list Edge :=
  filter (fun e => edge_in e = ensure_record_id source_id
                   /\ edge_out e = ensure_record_id notebook_id)
         (reference st).

End Handlers.
End Notebooks.

(** ** [api/routers/chat.py] *)
Module Chat.
Import Graph.

Record CreateSessionRequest := {
  csr_notebook_id : string;
  csr_title : option string;
  csr_model_override : option string;
}.

(** The outer [None] of a field: the request did not set it
    ([model_dump(exclude_unset=True)]). *)
Record UpdateSessionRequest := {
  usr_title : option (option string);
  usr_model_override : option (option string);
}.

Record ChatMessage := {
  cm_id : string;
  cm_type : string;
  cm_content : string;
  cm_timestamp : option string;
}.

Record ChatSessionResponse := {
  rs_id : string;
  rs_title : string;
  rs_notebook_id : option string;
  rs_created : string;
  rs_updated : string;
  rs_message_count : option nat;
  rs_model_override : option string;
}.

Record ChatSessionWithMessagesResponse := {
  rsm_session : ChatSessionResponse;
  rsm_messages : list ChatMessage;
}.

Record ExecuteChatRequest := {
  ec_session_id : string;
  ec_message : string;
  ec_context : ContextData;
  ec_model_override : option string;
  ec_prompt_id : option string;
  ec_include_citations : bool;
}.

Record ExecuteChatResponse := {
  er_session_id : string;
  er_messages : list ChatMessage;
}.

Record BuildContextRequest := {
  bc_notebook_id : string;
  bc_context_config : ContextConfig;
}.

Record BuildContextResponse := {
  br_sources : list SourceContext;
  br_notes : list NoteContext;
  br_token_count : nat;
  br_char_count : nat;
}.

(** [x or d] where [x] is an [Optional[str]] and [d] a string. *)
Definition or_str (x : option string) (d : string) : string :=
  if truthy x then default d x else d.

(** [str(x)] of an optional timestamp. *)
Definition str_opt (x : option string) : string := default "None" x.

(** The prefixing every session endpoint starts with. *)
Definition full_session_id (session_id : string) : string :=
  if startswith session_id "chat_session:" then session_id
  else "chat_session:" +:+ session_id.

(** The loop that turns graph messages into [ChatMessage]s. *)
Definition to_chat_messages (current_time : string) (msgs : list Message)
  : list ChatMessage :=
  fold_left
    (fun (messages : list ChatMessage) (msg : Message) =>
       app messages
         [{| cm_id := default ("msg_" +:+ pretty (List.length messages)) (m_id msg);
             cm_type := default "unknown" (m_type msg);
             cm_content := default (m_str msg) (m_content msg);
             cm_timestamp := Some current_time |}])
    msgs [].

(** The model chain as the specification words it: the request's model,
    else the session's, else the one of the notebook's active prompt, else
    the notebook's default. *)
Definition spec_model_chain (request session active_prompt notebook_default : option string)
  : option string :=
  match request with
  | Some m => Some m
  | None =>
      match session with
      | Some m => Some m
      | None =>
          match active_prompt with
          | Some m => Some m
          | None => notebook_default
          end
      end
  end.

(** A chat request under another spelling of its session id. *)
Definition with_session_id (session_id : string) (request : ExecuteChatRequest)
  : ExecuteChatRequest :=
  {| ec_session_id := session_id;
     ec_message := ec_message request;
     ec_context := ec_context request;
     ec_model_override := ec_model_override request;
     ec_prompt_id := ec_prompt_id request;
     ec_include_citations := ec_include_citations request |}.

(** What [get_session] answers about the session record itself: every
    field but the messages and their count. *)
Definition session_fields (r : response ChatSessionWithMessagesResponse)
  : response (string * string * option string * string * string * option string) :=
  match r with
  | Ok a =>
      let s := rsm_session a in
      Ok (rs_id s, rs_title s, rs_notebook_id s, rs_created s, rs_updated s,
          rs_model_override s)
  | Fail status detail => Fail status detail
  end.

Section Handlers.
Context `{Externals} `{DomainLayer}.

Definition set_title (t : option string) (s : ChatSession) : ChatSession :=
  {| cs_id := cs_id s; cs_title := t; cs_model_override := cs_model_override s;
     cs_created := cs_created s; cs_updated := cs_updated s |}.

Definition set_model_override (m : option string) (s : ChatSession) : ChatSession :=
  {| cs_id := cs_id s; cs_title := cs_title s; cs_model_override := m;
     cs_created := cs_created s; cs_updated := cs_updated s |}.

(** Modelled from the spec: [ChatSession.save] of [open_notebook.domain] is
    not under src/. A chat session is a persisted record: a session without
    an id is stored under a new id with both timestamps set, a session with
    an id is stored again under it with [updated] refreshed. *)
Definition ChatSession_save (now : string) (session : ChatSession) : M ChatSession :=
  st ← get_store;
  let saved :=
    match cs_id session with
    | Some _ =>
        {| cs_id := cs_id session; cs_title := cs_title session;
           cs_model_override := cs_model_override session;
           cs_created := cs_created session; cs_updated := Some now |}
    | None =>
        {| cs_id := Some (new_session_id st); cs_title := cs_title session;
           cs_model_override := cs_model_override session;
           cs_created := Some now; cs_updated := Some now |}
    end in
  _ ← modify_store (fun st =>
        set_chat_session (<[default "" (cs_id saved) := saved]> (chat_session st)) st);
  mret saved.

(** Modelled from the spec: [ChatSession.relate_to_notebook] is not under
    src/. The session-in-notebook relationship is a graph edge; the
    handlers read it back with [SELECT out FROM refers_to WHERE in =
    $session_id], so it is written as [RELATE session->refers_to->notebook]. *)
Definition relate_to_notebook (session : ChatSession) (notebook_id : string) : M unit :=
  modify_store (fun st =>
    set_refers_to
      (relate (refers_to st)
         (ensure_record_id (default "" (cs_id session)))
         (ensure_record_id notebook_id)) st).

(** Modelled from the spec: [ChatSession.delete] is not under src/; the
    persisted record is removed from its table. *)
Definition ChatSession_delete (session : ChatSession) : M unit :=
  modify_store (fun st =>
    set_chat_session (delete (default "" (cs_id session)) (chat_session st)) st).

(** *** [create_session] *)
Definition create_session_body (now loop_time : string)
    (request : CreateSessionRequest) : M ChatSessionResponse :=
  notebook ← Notebook_get (csr_notebook_id request);
  _ ← require notebook (HTTPException 404 "Notebook not found");
  let session :=
    {| cs_id := None;
       cs_title := Some (or_str (csr_title request) ("Chat Session " +:+ loop_time));
       cs_model_override := csr_model_override request;
       cs_created := None; cs_updated := None |} in
  session ← ChatSession_save now session;
  _ ← relate_to_notebook session (csr_notebook_id request);
  mret {| rs_id := or_str (cs_id session) "";
          rs_title := or_str (cs_title session) "";
          rs_notebook_id := Some (csr_notebook_id request);
          rs_created := str_opt (cs_created session);
          rs_updated := str_opt (cs_updated session);
          rs_message_count := Some 0;
          rs_model_override := cs_model_override session |}.

Definition create_session (now loop_time : string) (request : CreateSessionRequest)
    (st : Store) : response ChatSessionResponse * Store :=
  match create_session_body now loop_time request st with
  | (inr a, st') => (Ok a, st')
  | (inl (NotFoundError _), st') => (Fail 404 "Notebook not found", st')
  | (inl e, st') => (Fail 500 ("Error creating chat session: " +:+ exn_str e), st')
  end.

(** *** [get_session] *)
Definition get_session_body (now : string) (session_id : string)
  : M ChatSessionWithMessagesResponse :=
  let full_session_id_ := full_session_id session_id in
  session ← ChatSession_get full_session_id_;
  session ← require session (HTTPException 404 "Session not found");
  st ← get_store;
  (* chat_graph.get_state(config={"thread_id": session_id}) *)
  let thread_state := checkpoints st !! session_id in
  let messages :=
    match thread_state with
    | Some values => to_chat_messages now (ts_messages values)
    | None => []
    end in
  let full_session_id_ := full_session_id session_id in
  let notebook_query :=
    select_out_where_in (refers_to st) (ensure_record_id full_session_id_) in
  let notebook_id := head notebook_query in
  mret {| rsm_session :=
            {| rs_id := or_str (cs_id session) "";
               rs_title := or_str (cs_title session) "Untitled Session";
               rs_notebook_id := notebook_id;
               rs_created := str_opt (cs_created session);
               rs_updated := str_opt (cs_updated session);
               rs_message_count := Some (List.length messages);
               rs_model_override := cs_model_override session |};
          rsm_messages := messages |}.

Definition get_session (now : string) (session_id : string) (st : Store)
  : response ChatSessionWithMessagesResponse * Store :=
  match get_session_body now session_id st with
  | (inr a, st') => (Ok a, st')
  | (inl (NotFoundError _), st') => (Fail 404 "Session not found", st')
  | (inl e, st') => (Fail 500 ("Error fetching session: " +:+ exn_str e), st')
  end.

(** *** [update_session] *)
Definition update_session_body (now : string) (session_id : string)
    (request : UpdateSessionRequest) : M ChatSessionResponse :=
  let full_session_id_ := full_session_id session_id in
  session ← ChatSession_get full_session_id_;
  session ← require session (HTTPException 404 "Session not found");
  let session :=
    match usr_title request with
    | Some t => set_title t session
    | None => session
    end in
  let session :=
    match usr_model_override request with
    | Some m => set_model_override m session
    | None => session
    end in
  session ← ChatSession_save now session;
  st ← get_store;
  let full_session_id_ := full_session_id session_id in
  let notebook_query :=
    select_out_where_in (refers_to st) (ensure_record_id full_session_id_) in
  let notebook_id := head notebook_query in
  mret {| rs_id := or_str (cs_id session) "";
          rs_title := or_str (cs_title session) "";
          rs_notebook_id := notebook_id;
          rs_created := str_opt (cs_created session);
          rs_updated := str_opt (cs_updated session);
          rs_message_count := Some 0;
          rs_model_override := cs_model_override session |}.

Definition update_session (now : string) (session_id : string)
    (request : UpdateSessionRequest) (st : Store)
  : response ChatSessionResponse * Store :=
  match update_session_body now session_id request st with
  | (inr a, st') => (Ok a, st')
  | (inl (NotFoundError _), st') => (Fail 404 "Session not found", st')
  | (inl e, st') => (Fail 500 ("Error updating session: " +:+ exn_str e), st')
  end.

(** *** [delete_session] *)
Definition delete_session_body (session_id : string) : M string :=
  let full_session_id_ := full_session_id session_id in
  session ← ChatSession_get full_session_id_;
  session ← require session (HTTPException 404 "Session not found");
  _ ← ChatSession_delete session;
  mret "Session deleted successfully".

Definition delete_session (session_id : string) (st : Store)
  : response string * Store :=
  match delete_session_body session_id st with
  | (inr a, st') => (Ok a, st')
  | (inl (NotFoundError _), st') => (Fail 404 "Session not found", st')
  | (inl e, st') => (Fail 500 ("Error deleting session: " +:+ exn_str e), st')
  end.

(** *** [execute_chat] *)

(** Step 2: the custom system prompt, read through the notebook that the
    session refers to. *)
Definition resolve_custom_system_prompt (request : ExecuteChatRequest)
    (notebook_id : option string) : M (option string) :=
  match notebook_id with
  | Some notebook_id =>
      notebook ← Notebook_get notebook_id;
      match notebook with
      | Some notebook =>
          (* First priority: prompt_id from request *)
          custom_system_prompt ←
            (if truthy (ec_prompt_id request) then
               try_except
                 (specified_prompt ← SystemPrompt_get (default "" (ec_prompt_id request));
                  match specified_prompt with
                  | Some specified_prompt => mret (Some (sp_content specified_prompt))
                  | None => raise (OtherError "'NoneType' object has no attribute 'content'")
                  end)
                 (fun _ => mret None)
             else mret None);
          (* Second priority: active prompt from notebook *)
          custom_system_prompt ←
            (if negb (truthy custom_system_prompt)
                && truthy (nb_active_prompt_id notebook) then
               st ← get_store;
               active_prompt ← lift (get_active_prompt st notebook);
               match active_prompt with
               | Some active_prompt => mret (Some (sp_content active_prompt))
               | None => mret custom_system_prompt
               end
             else mret custom_system_prompt);
          (* Third priority: custom_system_prompt field (legacy) *)
          if negb (truthy custom_system_prompt)
             && truthy (nb_custom_system_prompt notebook) then
            mret (nb_custom_system_prompt notebook)
          else mret custom_system_prompt
      | None => mret None
      end
  | None => mret None
  end.

(** The log line about the first source slices its title, which fails on a
    title that is [None]. *)
Definition log_context_info (context : ContextData) : M unit :=
  match default [] (cd_sources context) with
  | first :: _ =>
      match dict_get (sc_title first) "No title" with
      | PyStr _ => mret tt
      | PyNone => raise (OtherError "'NoneType' object is not subscriptable")
      end
  | [] => mret tt
  end.

(** Steps 1 to 4: what [execute_chat] hands to [chat_graph.invoke]. *)
Definition execute_chat_prepare (request : ExecuteChatRequest)
  : M (ChatSession * ThreadState * RunnableConfig) :=
  let full_session_id_ := full_session_id (ec_session_id request) in
  session ← ChatSession_get full_session_id_;
  session ← require session (HTTPException 404 "Session not found");
  let model_override :=
    match ec_model_override request with
    | Some m => Some m
    | None => cs_model_override session
    end in
  st ← get_store;
  let notebook_query :=
    select_out_where_in (refers_to st) (ensure_record_id full_session_id_) in
  let notebook_id := head notebook_query in
  custom_system_prompt ← resolve_custom_system_prompt request notebook_id;
  (* chat_graph.get_state(config={"thread_id": request.session_id}) *)
  let current_state := checkpoints st !! ec_session_id request in
  _ ← log_context_info (ec_context request);
  let user_message := HumanMessage (ec_message request) in
  let state_values :=
    {| ts_messages := app (default [] (ts_messages <$> current_state)) [user_message];
       ts_notebook := current_state ≫= ts_notebook;
       ts_context := Some (ec_context request);
       ts_context_config := current_state ≫= ts_context_config;
       ts_model_override := model_override;
       ts_custom_system_prompt := custom_system_prompt;
       ts_include_citations := Some (Some (ec_include_citations request)) |} in
  mret (session, state_values,
        {| thread_id := Some (ec_session_id request); model_id := model_override |}).

(** The state the node runs on. LangGraph (not part of this repository)
    merges the input into the thread's checkpoint: the messages through the
    [add_messages] reducer, every other key by overwriting. *)
Definition node_state (checkpoint : option ThreadState) (input : ThreadState)
  : ThreadState :=
  {| ts_messages := add_messages (default [] (ts_messages <$> checkpoint)) (ts_messages input);
     ts_notebook := ts_notebook input;
     ts_context := ts_context input;
     ts_context_config := ts_context_config input;
     ts_model_override := ts_model_override input;
     ts_custom_system_prompt := ts_custom_system_prompt input;
     ts_include_citations := ts_include_citations input |}.

(** [chat_graph.invoke]: the one node of the graph runs on the merged state,
    its message is added, and the result is checkpointed under the thread
    id. The handler is a coroutine, so an event loop is running. *)
Definition chat_graph_invoke (input : ThreadState) (config : RunnableConfig)
  : M ThreadState :=
  st ← get_store;
  let thread := default "" (thread_id config) in
  let state := node_state (checkpoints st !! thread) input in
  let ai_message := call_model_with_messages true state config in
  let result :=
    {| ts_messages := add_messages (ts_messages state) [ai_message];
       ts_notebook := ts_notebook state;
       ts_context := ts_context state;
       ts_context_config := ts_context_config state;
       ts_model_override := ts_model_override state;
       ts_custom_system_prompt := ts_custom_system_prompt state;
       ts_include_citations := ts_include_citations state |} in
  _ ← modify_store (fun st => set_checkpoints (<[thread := result]> (checkpoints st)) st);
  mret result.

(** The model id of the provisioning call that a chat request leads to,
    when the request gets as far as the graph. *)
Definition execute_chat_provisioning (request : ExecuteChatRequest) (st : Store)
  : option Provisioning :=
  match execute_chat_prepare request st with
  | (inr (_, state_values, config), st') =>
      let thread := default "" (thread_id config) in
      Some (provisioning true (node_state (checkpoints st' !! thread) state_values) config)
  | (inl _, _) => None
  end.

Definition execute_chat_body (now : string) (request : ExecuteChatRequest)
  : M ExecuteChatResponse :=
  '(session, state_values, config) ← execute_chat_prepare request;
  result ← chat_graph_invoke state_values config;
  _ ← ChatSession_save now session;
  let messages := to_chat_messages now (ts_messages result) in
  mret {| er_session_id := ec_session_id request; er_messages := messages |}.

Definition execute_chat (now : string) (request : ExecuteChatRequest) (st : Store)
  : response ExecuteChatResponse * Store :=
  match execute_chat_body now request st with
  | (inr a, st') => (Ok a, st')
  | (inl (NotFoundError _), st') => (Fail 404 "Session not found", st')
  | (inl e, st') => (Fail 500 ("Error executing chat: " +:+ exn_str e), st')
  end.

(** *** [build_context] *)

(** The accumulators of the handler: the two lists of [context_data] and
    [total_content]. *)
Record Built := {
  b_sources : list SourceContext;
  b_notes : list NoteContext;
  b_total_content : string;
}.

Definition append_source (c : SourceContext) (acc : Built) : Built :=
  {| b_sources := app (b_sources acc) [c];
     b_notes := b_notes acc;
     b_total_content := b_total_content acc +:+ source_context_str c |}.

Definition append_note (c : NoteContext) (acc : Built) : Built :=
  {| b_sources := b_sources acc;
     b_notes := app (b_notes acc) [c];
     b_total_content := b_total_content acc +:+ note_context_str c |}.

(** [source.get_context(context_size=..)] inside a [try] whose handler is
    [continue]: a call that raises leaves the accumulators as they are. *)
Definition add_source_context (context : option SourceContext) (acc : Built) : Built :=
  match context with
  | Some c => append_source c acc
  | None => acc
  end.

Definition add_note_context (context : option NoteContext) (acc : Built) : Built :=
  match context with
  | Some c => append_note c acc
  | None => acc
  end.

(** One round of the loop over [sources_config.items()]. *)
Definition process_source (st : Store) (acc : Built) (entry : string * string) : Built :=
  let '(source_id, status) := entry in
  if contains "not in" status then acc
  else
    let full_source_id :=
      if startswith source_id "source:" then source_id
      else "source:" +:+ source_id in
    match Source_get full_source_id st with
    | (inl _, _) => acc
    | (inr source, _) =>
        if contains "insights" status then
          match source with
          | Some source => add_source_context (so_short source) acc
          | None => acc
          end
        else if contains "full content" status then
          match source with
          | Some source => add_source_context (so_long source) acc
          | None => acc
          end
        else acc
    end.

(** One round of the loop over the configured notes. *)
Definition process_note (st : Store) (acc : Built) (entry : string * string) : Built :=
  let '(note_id, status) := entry in
  if contains "not in" status then acc
  else
    let full_note_id :=
      if startswith note_id "note:" then note_id else "note:" +:+ note_id in
    match Note_get full_note_id st with
    | (inl _, _) => acc
    | (inr None, _) => acc
    | (inr (Some note), _) =>
        if contains "full content" status then add_note_context (no_long note) acc
        else acc
    end.

(** [if request.context_config:] *)
Definition config_truthy (config : ContextConfig) : bool :=
  bool_decide (is_Some (cc_sources config))
  || bool_decide (is_Some (cc_notes config))
  || cc_other_keys config.

Definition build_context_body (request : BuildContextRequest) : M BuildContextResponse :=
  notebook ← Notebook_get (bc_notebook_id request);
  notebook ← require notebook (HTTPException 404 "Notebook not found");
  st ← get_store;
  let context_data := {| b_sources := []; b_notes := []; b_total_content := "" |} in
  built ←
    (if config_truthy (bc_context_config request) then
       let sources_config := default [] (cc_sources (bc_context_config request)) in
       let acc := fold_left (process_source st) sources_config context_data in
       mret (fold_left (process_note st)
               (default [] (cc_notes (bc_context_config request))) acc)
     else
       sources ← lift (get_sources st notebook);
       let acc :=
         fold_left (fun acc source => add_source_context (so_short source) acc)
                   sources context_data in
       notes ← lift (get_notes st notebook);
       mret (fold_left (fun acc note => add_note_context (no_short note) acc)
                       notes acc));
  let total_content := b_total_content built in
  let char_count := String.length total_content in
  let estimated_tokens :=
    match token_count with
    | Some token_count => if str_truthy total_content then token_count total_content else 0
    | None => char_count / 4
    end in
  mret {| br_sources := b_sources built;
          br_notes := b_notes built;
          br_token_count := estimated_tokens;
          br_char_count := char_count |}.

Definition build_context (request : BuildContextRequest) (st : Store)
  : response BuildContextResponse * Store :=
  match build_context_body request st with
  | (inr a, st') => (Ok a, st')
  | (inl (HTTPException status detail), st') => (Fail status detail, st')
  | (inl e, st') => (Fail 500 ("Error building context: " +:+ exn_str e), st')
  end.

(** What one configured source, or note, adds to the context: nothing, or
    one context dictionary. *)
Definition full_source_id (source_id : string) : string :=
  if startswith source_id "source:" then source_id else "source:" +:+ source_id.

Definition full_note_id (note_id : string) : string :=
  if startswith note_id "note:" then note_id else "note:" +:+ note_id.

Definition source_contribution (st : Store) (entry : string * string)
  : option SourceContext :=
  b_sources (process_source st {| b_sources := []; b_notes := []; b_total_content := "" |} entry)
  !! 0.

Definition note_contribution (st : Store) (entry : string * string)
  : option NoteContext :=
  b_notes (process_note st {| b_sources := []; b_notes := []; b_total_content := "" |} entry)
  !! 0.

(** A request whose configuration lists other sources, or other notes. *)
Definition with_sources (l : list (string * string)) (request : BuildContextRequest)
  : BuildContextRequest :=
  {| bc_notebook_id := bc_notebook_id request;
     bc_context_config :=
       {| cc_sources := Some l;
          cc_notes := cc_notes (bc_context_config request);
          cc_other_keys := cc_other_keys (bc_context_config request) |} |}.

Definition with_notes (l : list (string * string)) (request : BuildContextRequest)
  : BuildContextRequest :=
  {| bc_notebook_id := bc_notebook_id request;
     bc_context_config :=
       {| cc_sources := cc_sources (bc_context_config request);
          cc_notes := Some l;
          cc_other_keys := cc_other_keys (bc_context_config request) |} |}.

(** The token estimate and the character count of a response. *)
Definition counted (sources : list SourceContext) (notes : list NoteContext)
  : BuildContextResponse :=
  let total_content :=
    join (source_context_str <$> sources) +:+ join (note_context_str <$> notes) in
  {| br_sources := sources;
     br_notes := notes;
     br_token_count :=
       match token_count with
       | Some token_count =>
           if str_truthy total_content then token_count total_content else 0
       | None => String.length total_content / 4
       end;
     br_char_count := String.length total_content |}.

End Handlers.
End Chat.

(** ** Sample data, used to run the definitions *)
Module Sample.
Import Graph.

Definition externals : Externals :=
  {| Model := option string;
     render_chat_system := fun _ => "chat/system";
     payload_str := fun system messages => system +:+ join (m_str <$> messages);
     provision_langchain_model := fun call => pv_model_id call;
     model_invoke := fun model system messages =>
       {| m_id := Some "run-1"; m_type := Some "ai";
          m_content := Some "Aye."; m_str := "Aye." |};
     clean_thinking_content := fun content => content;
     HumanMessage := fun content =>
       {| m_id := None; m_type := Some "human";
          m_content := Some content; m_str := content |};
     add_messages := fun left right => right |}.

Definition insight : Insight :=
  {| in_id := Some (PyStr "source_insight:i1");
     in_insight_type := Some (PyStr "Summary");
     in_content := Some (PyStr "Short.") |}.

Definition source_context : SourceContext :=
  {| sc_id := Some (PyStr "source:s1");
     sc_title := Some (PyStr "Paper");
     sc_full_text := Some (PyStr "Body.");
     sc_insights := Some [insight] |}.

Definition note_context : NoteContext :=
  {| nc_id := Some (PyStr "note:n1");
     nc_title := Some (PyStr "Memo");
     nc_content := Some (PyStr "Remember.") |}.

Definition context : ContextData :=
  {| cd_sources := Some [source_context]; cd_notes := Some [note_context] |}.

Definition thread_state : ThreadState :=
  {| ts_messages := [];
     ts_notebook := None;
     ts_context := Some context;
     ts_context_config := None;
     ts_model_override := None;
     ts_custom_system_prompt := Some "You are a pirate.";
     ts_include_citations := Some (Some false) |}.

Definition domain : DomainLayer :=
  {| on_missing := RaisesNotFoundError;
     not_found_message := fun id => id +:+ " not found";
     ensure_record_id := fun id => id;
     new_session_id := fun st => "chat_session:s" +:+ pretty (size (chat_session st));
     get_active_prompt := fun st nb =>
       inr (nb_active_prompt_id nb ≫= fun pid => Db.system_prompt st !! pid);
     get_sources := fun st nb => inr (map_to_list (source st)).*2;
     get_notes := fun st nb => inr (map_to_list (note st)).*2;
     source_context_str := fun c => py_format (dict_get (sc_title c) "");
     note_context_str := fun c => py_format (dict_get (nc_title c) "");
     token_count := Some String.length |}.

(** The same world with a domain layer that answers a missing record with
    [None]. *)
Definition domain_none : DomainLayer :=
  {| on_missing := ReturnsNone;
     not_found_message := @not_found_message domain;
     ensure_record_id := @ensure_record_id domain;
     new_session_id := @new_session_id domain;
     get_active_prompt := @get_active_prompt domain;
     get_sources := @get_sources domain;
     get_notes := @get_notes domain;
     source_context_str := @source_context_str domain;
     note_context_str := @note_context_str domain;
     token_count := @token_count domain |}.

Definition the_notebook : Notebook :=
  {| nb_id := Some "notebook:n1"; nb_name := "Research"; nb_description := "";
     nb_archived := Some false; nb_created := "2025-01-01"; nb_updated := "2025-01-01";
     nb_custom_system_prompt := Some "Legacy prompt.";
     nb_active_prompt_id := Some "system_prompt:p1" |}.

Definition the_source : Source :=
  {| so_id := Some "source:s1";
     so_short :=
       Some {| sc_id := Some (PyStr "source:s1"); sc_title := Some (PyStr "Paper");
               sc_full_text := None; sc_insights := Some [insight] |};
     so_long := Some source_context |}.

Definition the_note : Note :=
  {| no_id := Some "note:n1";
     no_short :=
       Some {| nc_id := Some (PyStr "note:n1"); nc_title := Some (PyStr "Memo");
               nc_content := None |};
     no_long := Some note_context |}.

Definition active_prompt : SystemPrompt :=
  {| sp_id := Some "system_prompt:p1"; sp_name := "Pirate";
     sp_content := "You are a pirate." |}.

Definition other_prompt : SystemPrompt :=
  {| sp_id := Some "system_prompt:p2"; sp_name := "Poet";
     sp_content := "You are a poet." |}.

Definition empty_prompt : SystemPrompt :=
  {| sp_id := Some "system_prompt:p3"; sp_name := "Blank"; sp_content := "" |}.

Definition the_session : ChatSession :=
  {| cs_id := Some "chat_session:abc"; cs_title := Some "First chat";
     cs_model_override := None;
     cs_created := Some "2025-01-02"; cs_updated := Some "2025-01-02" |}.

Definition hello : Message :=
  {| m_id := Some "m1"; m_type := Some "human"; m_content := Some "Hello";
     m_str := "Hello" |}.

Definition stored_thread : ThreadState :=
  {| ts_messages := [hello];
     ts_notebook := None;
     ts_context := None;
     ts_context_config := None;
     ts_model_override := None;
     ts_custom_system_prompt := None;
     ts_include_citations := Some (Some false) |}.

(** One notebook with a source, a note and two prompts; one chat session
    that refers to the notebook and whose thread was checkpointed under the
    full session id. No source is linked yet. *)
Definition store : Store :=
  {| notebook := {[ "notebook:n1" := the_notebook ]};
     source := {[ "source:s1" := the_source ]};
     note := {[ "note:n1" := the_note ]};
     Db.system_prompt :=
       {[ "system_prompt:p1" := active_prompt; "system_prompt:p2" := other_prompt;
          "system_prompt:p3" := empty_prompt ]};
     chat_session := {[ "chat_session:abc" := the_session ]};
     reference := [];
     refers_to := [{| edge_in := "chat_session:abc"; edge_out := "notebook:n1" |}];
     checkpoints := {[ "chat_session:abc" := stored_thread ]} |}.

Definition create_request : Chat.CreateSessionRequest :=
  {| Chat.csr_notebook_id := "notebook:n1";
     Chat.csr_title := None;
     Chat.csr_model_override := Some "model:fast" |}.

Definition create_request_missing : Chat.CreateSessionRequest :=
  {| Chat.csr_notebook_id := "notebook:none";
     Chat.csr_title := None;
     Chat.csr_model_override := None |}.

(** A chat request that names the session without its table prefix, asks
    for the poet prompt and sets no model. *)
Definition chat_request : Chat.ExecuteChatRequest :=
  {| Chat.ec_session_id := "abc";
     Chat.ec_message := "Hi";
     Chat.ec_context := context;
     Chat.ec_model_override := None;
     Chat.ec_prompt_id := Some "system_prompt:p2";
     Chat.ec_include_citations := false |}.


(** The same request with a model of its own. *)
Definition chat_request_model : Chat.ExecuteChatRequest :=
  {| Chat.ec_session_id := "abc";
     Chat.ec_message := "Hi";
     Chat.ec_context := context;
     Chat.ec_model_override := Some "model:request";
     Chat.ec_prompt_id := Some "system_prompt:p2";
     Chat.ec_include_citations := false |}.

(** A context request over the sample notebook: the source once for its
    insights, once in full, once excluded; the note in full. *)
Definition context_request : Chat.BuildContextRequest :=
  {| Chat.bc_notebook_id := "notebook:n1";
     Chat.bc_context_config :=
       {| cc_sources :=
            Some [("s1", "insights"); ("source:s1", "full content"); ("s1", "not in")];
          cc_notes := Some [("n1", "full content")];
          cc_other_keys := false |} |}.


(** The sample store with no checkpointed thread. *)
Definition fresh_store : Store := set_checkpoints ∅ store.

End Sample.

(** ** Chat contexts without their document ids *)
Module Uncited.
Import Graph.

Definition erase_insight (insight : Insight) : Insight :=
  {| in_id := None;
     in_insight_type := in_insight_type insight;
     in_content := in_content insight |}.

Definition erase_source (source : SourceContext) : SourceContext :=
  {| sc_id := None;
     sc_title := sc_title source;
     sc_full_text := sc_full_text source;
     sc_insights := option_map (List.map erase_insight) (sc_insights source) |}.

Definition erase_note (note : NoteContext) : NoteContext :=
  {| nc_id := None;
     nc_title := nc_title note;
     nc_content := nc_content note |}.

Definition erase_context (context : ContextData) : ContextData :=
  {| cd_sources := option_map (List.map erase_source) (cd_sources context);
     cd_notes := option_map (List.map erase_note) (cd_notes context) |}.

(** The thread state with the "id" key taken out of every source, insight
    and note of its context. *)
Definition erase_ids (state : ThreadState) : ThreadState :=
  {| ts_messages := ts_messages state;
     ts_notebook := ts_notebook state;
     ts_context := option_map erase_context (ts_context state);
     ts_context_config := ts_context_config state;
     ts_model_override := ts_model_override state;
     ts_custom_system_prompt := ts_custom_system_prompt state;
     ts_include_citations := ts_include_citations state |}.

End Uncited.

(** ** [api/routers/notebooks.py]: the notebook listing *)
Module NotebookList.

(** A row of [SELECT *, count(<-reference.in) as source_count,
    count(<-artifact.in) as note_count FROM notebook]: a field is [None]
    when the row has no such key. *)
Record NotebookRow := {
  row_id : option string;
  row_name : option string;
  row_description : option string;
  row_archived : option bool;
  row_created : option string;
  row_updated : option string;
  row_source_count : option nat;
  row_note_count : option nat;
  row_custom_system_prompt : option string;
  row_active_prompt_id : option string;
}.

(** [NotebookResponse] of [api/models.py]; it declares no
    [active_prompt_id]. *)
Record NotebookResponse := {
  nr_id : string;
  nr_name : string;
  nr_description : string;
  nr_archived : bool;
  nr_created : string;
  nr_updated : string;
  nr_source_count : nat;
  nr_note_count : nat;
  nr_custom_system_prompt : option string;
}.

(** The [NotebookResponse(...)] built from a row [nb]. *)
Definition to_response (nb : NotebookRow) : NotebookResponse :=
  {| nr_id := default "" (row_id nb);
     nr_name := default "" (row_name nb);
     nr_description := default "" (row_description nb);
     nr_archived := default false (row_archived nb);
     nr_created := default "" (row_created nb);
     nr_updated := default "" (row_updated nb);
     nr_source_count := default 0 (row_source_count nb);
     nr_note_count := default 0 (row_note_count nb);
     nr_custom_system_prompt := row_custom_system_prompt nb |}.

(** [if archived is not None:
       result = [nb for nb in result if nb.get("archived") == archived]] *)
Definition archived_filter (archived : option bool) (result : list NotebookRow)
  : list NotebookRow :=
  match archived with
  | Some archived => filter (fun nb => row_archived nb = Some archived) result
  | None => result
  end.

(** [get_notebooks], given the rows that the query returns. *)
Definition get_notebooks (archived : option bool) (result : list NotebookRow)
  : list NotebookResponse :=
  to_response <$> archived_filter archived result.

End NotebookList.

(** ** Handlers called again and again, and configurations spelled otherwise *)
Module Repeated.
Section Handlers.
Context `{DomainLayer}.

(** [k] calls of [add_source_to_notebook] for the same pair. *)
Fixpoint add_source_times (k : nat) (notebook_id source_id : string) (st : Store)
  : Store :=
  match k with
  | 0 => st
  | S k' =>
      add_source_times k' notebook_id source_id
        (Notebooks.add_source_to_notebook notebook_id source_id st).2
  end.

(** A context configuration is a dictionary, with one entry per id.
    Writing every id with its table prefix gives a dictionary with the same
    number of entries only when no two ids come out the same (as "s1" and
    "source:s1" would); otherwise there is no such configuration. *)
Definition prefixed_sources (l : list (string * string))
  : option (list (string * string)) :=
  let prefixed := (fun entry => (Chat.full_source_id entry.1, entry.2)) <$> l in
  if decide (NoDup prefixed.*1) then Some prefixed else None.

Definition prefixed_notes (l : list (string * string))
  : option (list (string * string)) :=
  let prefixed := (fun entry => (Chat.full_note_id entry.1, entry.2)) <$> l in
  if decide (NoDup prefixed.*1) then Some prefixed else None.

End Handlers.
End Repeated.

(** ** More sample data *)
Module Cases.
Import Graph.

(** A source whose title key holds [None]. *)
Definition untitled_source : SourceContext :=
  {| sc_id := Some (PyStr "source:s2");
     sc_title := Some PyNone;
     sc_full_text := None;
     sc_insights := None |}.

Definition untitled_request : Chat.ExecuteChatRequest :=
  {| Chat.ec_session_id := "abc";
     Chat.ec_message := "Hi";
     Chat.ec_context := {| cd_sources := Some [untitled_source]; cd_notes := None |};
     Chat.ec_model_override := None;
     Chat.ec_prompt_id := None;
     Chat.ec_include_citations := false |}.

(** The sample thread state without a custom prompt. *)
Definition plain_thread_state : ThreadState :=
  {| ts_messages := [];
     ts_notebook := None;
     ts_context := Some Sample.context;
     ts_context_config := None;
     ts_model_override := None;
     ts_custom_system_prompt := None;
     ts_include_citations := Some (Some false) |}.

(** The same, with another id on the source. *)
Definition renumbered_thread_state : ThreadState :=
  {| ts_messages := [];
     ts_notebook := None;
     ts_context :=
       Some {| cd_sources :=
                 Some [{| sc_id := Some (PyStr "source:other");
                          sc_title := sc_title Sample.source_context;
                          sc_full_text := sc_full_text Sample.source_context;
                          sc_insights := sc_insights Sample.source_context |}];
               cd_notes := Some [Sample.note_context] |};
     ts_context_config := None;
     ts_model_override := None;
     ts_custom_system_prompt := None;
     ts_include_citations := Some (Some false) |}.

Definition rename_request : Chat.UpdateSessionRequest :=
  {| Chat.usr_title := Some (Some "Renamed");
     Chat.usr_model_override := None |}.

End Cases.

(** ** More sample requests *)
Module CasesContext.

(** A configuration that excludes everything it lists. *)
Definition excluding_request : Chat.BuildContextRequest :=
  {| Chat.bc_notebook_id := "notebook:n1";
     Chat.bc_context_config :=
       {| cc_sources := Some [("s1", "not in"); ("source:s1", "not included")];
          cc_notes := Some [("n1", "not in")];
          cc_other_keys := false |} |}.

Definition missing_notebook_request : Chat.BuildContextRequest :=
  {| Chat.bc_notebook_id := "notebook:none";
     Chat.bc_context_config :=
       {| cc_sources := None; cc_notes := None; cc_other_keys := false |} |}.

End CasesContext.

(** ** Sample rows and requests for the notebook and source endpoints *)
Module CasesNotebooks.
Import NotebookList.

Definition row (id : string) (archived : option bool) : NotebookRow :=
  {| row_id := Some id; row_name := Some "Research"; row_description := None;
     row_archived := archived; row_created := Some "2025-01-01";
     row_updated := Some "2025-01-01"; row_source_count := Some 2;
     row_note_count := None; row_custom_system_prompt := None;
     row_active_prompt_id := Some "system_prompt:p1" |}.

(** An open notebook, an archived one, and one whose row has no
    "archived" key. *)
Definition rows : list NotebookRow :=
  [row "notebook:n1" (Some false); row "notebook:n2" (Some true);
   row "notebook:n3" None].

(** A source-creation request in the legacy spelling. *)
Definition legacy_source : Models.SourceCreate :=
  {| Models.notebook_id := Some "notebook:n1";
     Models.notebooks := None;
     Models.type_ := "text";
     Models.url := None;
     Models.file_path := None;
     Models.content := Some "Body.";
     Models.title := None;
     Models.transformations := Some [];
     Models.embed := false;
     Models.delete_source := false;
     Models.async_processing := false |}.

End CasesNotebooks.

(** ** Sample source-creation requests *)
Module CasesSources.

(** The legacy spelling: one notebook, named by [notebook_id]. *)
Definition legacy : Models.SourceCreate :=
  {| Models.notebook_id := Some "notebook:n1";
     Models.notebooks := None;
     Models.type_ := "text";
     Models.url := None;
     Models.file_path := None;
     Models.content := Some "Body.";
     Models.title := Some "Paper";
     Models.transformations := Some [];
     Models.embed := true;
     Models.delete_source := false;
     Models.async_processing := false |}.

(** A source that goes into no notebook. *)
Definition unfiled : Models.SourceCreate :=
  {| Models.notebook_id := None;
     Models.notebooks := None;
     Models.type_ := "link";
     Models.url := Some "https://example.org";
     Models.file_path := None;
     Models.content := None;
     Models.title := None;
     Models.transformations := Some ["transformation:t1"];
     Models.embed := false;
     Models.delete_source := false;
     Models.async_processing := true |}.

(** Both fields at once. *)
Definition twofold : Models.SourceCreate :=
  {| Models.notebook_id := Some "notebook:n1";
     Models.notebooks := Some ["notebook:n2"];
     Models.type_ := "text";
     Models.url := None;
     Models.file_path := None;
     Models.content := Some "Body.";
     Models.title := None;
     Models.transformations := Some [];
     Models.embed := false;
     Models.delete_source := false;
     Models.async_processing := false |}.

End CasesSources.

(** ** The custom-prompt system message, as it reads *)
Module Layout.
Import Graph.

(** What an entry of a context dictionary shows in the message: its text,
    the word None for a null value, the default when the key is missing. *)
Definition shown (field : option pyval) (missing : string) : string :=
  match field with
  | Some (PyStr text) => text
  | Some PyNone => "None"
  | None => missing
  end.

(** The ID tag after a title or an insight type: only with citations. *)
Definition id_shown (include_citations : bool) (id : option pyval) : string :=
  if include_citations then " [ID: " +:+ shown id "unknown" +:+ "]" else "".

(** An insight: a heading with its type, then its content. *)
Definition insight_text (include_citations : bool) (insight : Insight) : string :=
  NL +:+ "### " +:+ shown (in_insight_type insight) "Insight"
  +:+ id_shown include_citations (in_id insight) +:+ NL
  +:+ shown (in_content insight) "" +:+ NL.

(** A source: a heading with its title, its full text when it has one,
    then its insights. *)
Definition source_text (include_citations : bool) (source : SourceContext) : string :=
  NL +:+ NL +:+ "## Source: " +:+ shown (sc_title source) "Unknown"
  +:+ id_shown include_citations (sc_id source) +:+ NL
  +:+ match sc_full_text source with
      | Some text => NL +:+ "### Full Content" +:+ NL +:+ shown (Some text) "" +:+ NL
      | None => ""
      end
  +:+ join (insight_text include_citations <$> default [] (sc_insights source)).

(** A note: a heading with its title, then its content. *)
Definition note_text (include_citations : bool) (note : NoteContext) : string :=
  NL +:+ NL +:+ "## Note: " +:+ shown (nc_title note) "Unknown"
  +:+ id_shown include_citations (nc_id note) +:+ NL
  +:+ shown (nc_content note) "" +:+ NL.

Definition role_reminder : string :=
  "IMPORTANT: You must follow the role and behavior described above in your current response, regardless of what role you may have taken in previous messages.".

Definition citing_instructions : string :=
  NL +:+ "# CITING INSTRUCTIONS" +:+ NL
  +:+ "If your answer is based on any item in the context above, add references to the documents by including the document ID in brackets like this: [document_id]." +:+ NL
  +:+ NL
  +:+ "Example: According to the regulations [source_insight:abc123], cosmetic labeling must include..." +:+ NL
  +:+ NL
  +:+ "IMPORTANT:" +:+ NL
  +:+ "- Use document IDs exactly as provided in the context" +:+ NL
  +:+ "- IDs have prefixes like " +:+ DQ +:+ "source:" +:+ DQ +:+ ", "
      +:+ DQ +:+ "source_insight:" +:+ DQ +:+ ", " +:+ DQ +:+ "note:" +:+ DQ +:+ NL
  +:+ "- Do not make up or modify document IDs" +:+ NL.

(** The sample thread state with citations on, and one whose context has
    neither source nor note. *)
Definition cited_thread_state : ThreadState :=
  {| ts_messages := [];
     ts_notebook := None;
     ts_context := Some Sample.context;
     ts_context_config := None;
     ts_model_override := None;
     ts_custom_system_prompt := Some "You are a pirate.";
     ts_include_citations := Some (Some true) |}.

Definition bare_thread_state : ThreadState :=
  {| ts_messages := [];
     ts_notebook := None;
     ts_context := Some {| cd_sources := Some []; cd_notes := None |};
     ts_context_config := None;
     ts_model_override := None;
     ts_custom_system_prompt := Some "You are a pirate.";
     ts_include_citations := Some (Some true) |}.

End Layout.

(* ===================================================================== *)
(** * Part II: theorems                                                   *)
(* ===================================================================== *)

Section SourceCreateFacts.
Import Models.

(** C6. A source may belong to zero or more notebooks: a creation request
    with neither [notebook_id] nor [notebooks] is accepted and its
    [notebooks] field becomes the empty list; one with only the legacy
    [notebook_id] is accepted and its [notebooks] field becomes the
    one-element list holding that id; one that already has a list is
    accepted as it is; one giving both fields is rejected with a validation
    error. Every other field of an accepted request, [notebook_id]
    included, is as it was sent. *)
Theorem validate_notebook_fields_cases (r : SourceCreate) :
  let accepted (l : list string) : exn + SourceCreate :=
    inr {| notebook_id := notebook_id r;
           notebooks := Some l;
           type_ := type_ r;
           url := url r;
           file_path := file_path r;
           content := content r;
           title := title r;
           transformations := transformations r;
           embed := embed r;
           delete_source := delete_source r;
           async_processing := async_processing r |} in
  match notebook_id r, notebooks r with
  | None, None => validate_notebook_fields r = accepted []
  | Some nb, None => validate_notebook_fields r = accepted [nb]
  | None, Some l => validate_notebook_fields r = accepted l
  | Some _, Some _ =>
      validate_notebook_fields r
      = inl (ValueError
               "Cannot specify both 'notebook_id' and 'notebooks'. Use 'notebooks' for multi-notebook support.")
  end.
Proof.
  destruct r as [nid nbs ty u fp c t tr e d a]; unfold validate_notebook_fields; simpl.
  destruct nid as [nb|], nbs as [l|]; reflexivity.
Qed.

(** The three kinds of request, validated: the legacy spelling, no notebook
    at all, and both fields at once. *)
Lemma validate_notebook_fields_cases_witness :
  validate_notebook_fields CasesSources.legacy
  = inr {| notebook_id := Some "notebook:n1";
           notebooks := Some ["notebook:n1"];
           type_ := "text"; url := None; file_path := None;
           content := Some "Body."; title := Some "Paper";
           transformations := Some []; embed := true;
           delete_source := false; async_processing := false |}
  /\ validate_notebook_fields CasesSources.unfiled
     = inr {| notebook_id := None;
              notebooks := Some [];
              type_ := "link"; url := Some "https://example.org"; file_path := None;
              content := None; title := None;
              transformations := Some ["transformation:t1"]; embed := false;
              delete_source := false; async_processing := true |}
  /\ validate_notebook_fields CasesSources.twofold
     = inl (ValueError
              "Cannot specify both 'notebook_id' and 'notebooks'. Use 'notebooks' for multi-notebook support.").
Proof.
  split; [exact (validate_notebook_fields_cases CasesSources.legacy)|].
  split; [exact (validate_notebook_fields_cases CasesSources.unfiled)|].
  exact (validate_notebook_fields_cases CasesSources.twofold).
Defined.

End SourceCreateFacts.

(** ** Strings *)
Section Strings.

Lemma append_cons (ch : ascii) (a b : string) :
  String ch a +:+ b = String ch (a +:+ b).
Proof. reflexivity. Qed.

Lemma append_empty_l (a : string) : "" +:+ a = a.
Proof. reflexivity. Qed.

Lemma append_assoc (a b c : string) : (a +:+ b) +:+ c = a +:+ (b +:+ c).
Proof.
  induction a as [|ch a IH]; [reflexivity|].
  by rewrite !append_cons, IH.
Qed.

Lemma append_empty_r (a : string) : a +:+ "" = a.
Proof.
  induction a as [|ch a IH]; [reflexivity|].
  by rewrite append_cons, IH.
Qed.

Lemma startswith_append (p s : string) : startswith (p +:+ s) p = true.
Proof.
  unfold startswith. induction p as [|ch p IH]; [by destruct s|].
  rewrite append_cons. simpl. destruct (ascii_dec ch ch); [exact IH | contradiction].
Qed.

Lemma str_truthy_append (a b : string) :
  str_truthy (a +:+ b) = str_truthy a || str_truthy b.
Proof. destruct a; reflexivity. Qed.

Lemma str_truthy_false (a : string) : str_truthy a = false -> a = "".
Proof. destruct a; [reflexivity | discriminate]. Qed.

Lemma truthy_Some (o : option string) :
  truthy o = true -> exists s, o = Some s /\ s <> "".
Proof.
  destruct o as [[|c s]|]; simpl; try discriminate.
  intros _. eexists; split; [reflexivity | discriminate].
Qed.

Lemma py_or_same (m : option string) : py_or m m = m.
Proof. unfold py_or. destruct (truthy m); reflexivity. Qed.

End Strings.

(** ** The chat node *)
Section NodeFacts.
Import Graph.
Context `{Externals}.

Lemma join_app (l1 l2 : list string) : join (l1 ++ l2) = join l1 +:+ join l2.
Proof.
  induction l1 as [|s l1 IH]; simpl; [reflexivity|].
  by rewrite IH, append_assoc.
Qed.

Lemma add_insight_section cit acc i :
  add_insight cit acc i = acc +:+ insight_section cit i.
Proof.
  unfold add_insight, insight_section, id_tag.
  destruct cit; simpl; rewrite ?append_assoc; reflexivity.
Qed.

Lemma fold_insights cit l : forall acc,
  fold_left (add_insight cit) l acc = acc +:+ join (insight_section cit <$> l).
Proof.
  induction l as [|i l IH]; intros acc; simpl.
  - by rewrite append_empty_r.
  - by rewrite IH, add_insight_section, append_assoc.
Qed.

Lemma add_source_section cit acc src :
  add_source cit acc src = acc +:+ source_section cit src.
Proof.
  unfold add_source, source_section, full_text_section, id_tag.
  destruct src as [sid stitle stext sins]; simpl.
  destruct sins as [ins|]; simpl; rewrite ?fold_insights;
    destruct cit, stext as [t|]; simpl;
    rewrite ?append_assoc; simpl; rewrite ?append_empty_r; reflexivity.
Qed.

Lemma add_note_section cit acc n :
  add_note cit acc n = acc +:+ note_section cit n.
Proof.
  unfold add_note, note_section, id_tag.
  destruct cit; simpl; rewrite ?append_assoc; reflexivity.
Qed.

Lemma fold_sources cit l : forall acc,
  fold_left (add_source cit) l acc = acc +:+ join (source_section cit <$> l).
Proof.
  induction l as [|s l IH]; intros acc; simpl.
  - by rewrite append_empty_r.
  - by rewrite IH, add_source_section, append_assoc.
Qed.

Lemma fold_notes cit l : forall acc,
  fold_left (add_note cit) l acc = acc +:+ join (note_section cit <$> l).
Proof.
  induction l as [|s l IH]; intros acc; simpl.
  - by rewrite append_empty_r.
  - by rewrite IH, add_note_section, append_assoc.
Qed.

Lemma custom_context_str_layout cit ctx :
  custom_context_str cit ctx
  = join (source_section cit <$> sources_of ctx)
    +:+ join (note_section cit <$> notes_of ctx).
Proof. unfold custom_context_str. by rewrite fold_sources, fold_notes. Qed.

Lemma source_section_truthy cit src : str_truthy (source_section cit src) = true.
Proof. reflexivity. Qed.

Lemma note_section_truthy cit n : str_truthy (note_section cit n) = true.
Proof. reflexivity. Qed.

Lemma custom_context_str_empty cit ctx :
  sources_of ctx = [] -> notes_of ctx = [] -> custom_context_str cit ctx = "".
Proof.
  intros Hs Hn. rewrite custom_context_str_layout, Hs, Hn. reflexivity.
Qed.

Lemma custom_context_str_truthy cit ctx :
  sources_of ctx <> [] \/ notes_of ctx <> [] ->
  str_truthy (custom_context_str cit ctx) = true.
Proof.
  intros Hne. rewrite custom_context_str_layout, str_truthy_append.
  destruct (sources_of ctx) as [|s l]; [|reflexivity].
  destruct (notes_of ctx) as [|n l]; [|reflexivity].
  destruct Hne as [Hne|Hne]; contradiction.
Qed.

(** The custom-prompt branch, in terms of the sections that its loops
    append. *)
Lemma custom_system_prompt_sections (state : ThreadState) (custom : string) :
  ts_custom_system_prompt state = Some custom ->
  custom <> "" ->
  let cit := get_include_citations state in
  let sources := sources_of (ts_context state) in
  let notes := notes_of (ts_context state) in
  (sources <> [] \/ notes <> [] ->
   system_prompt state
   = custom +:+ context_header
     +:+ join (source_section cit <$> sources)
     +:+ join (note_section cit <$> notes)
     +:+ NL +:+ (if cit then citing_instructions_text else ""))
  /\ (sources = [] -> notes = [] ->
      system_prompt state = custom +:+ NL +:+ NL +:+ reminder).
Proof.
  intros Hc Hne cit sources notes.
  assert (Ht : truthy (ts_custom_system_prompt state) = true).
  { rewrite Hc. destruct custom; [contradiction | reflexivity]. }
  unfold system_prompt. rewrite Ht, Hc. simpl default.
  fold cit. split.
  - intros Hctx. rewrite (custom_context_str_truthy cit _ Hctx).
    rewrite custom_context_str_layout. fold sources notes.
    unfold context_header. rewrite !append_assoc. reflexivity.
  - intros Hs Hn. by rewrite (custom_context_str_empty cit _ Hs Hn).
Qed.

(** C4. Both branches of the event-loop fallback make the same
    provisioning call: the stringified payload, the resolved model id, the
    purpose "chat" and [max_tokens=8192]; the node therefore returns the
    same message on either path. *)
Theorem provisioning_same_on_both_paths (state : ThreadState) (config : RunnableConfig) :
  provisioning true state config = provisioning false state config
  /\ provisioning true state config
     = {| pv_content := payload_str (system_prompt state) (ts_messages state);
          pv_model_id := resolve_model_id state config;
          pv_default_type := "chat";
          pv_max_tokens := 8192 |}
  /\ call_model_with_messages true state config
     = call_model_with_messages false state config.
Proof.
  unfold call_model_with_messages, provisioning, run_in_new_loop, asyncio_run.
  repeat split.
Qed.

End NodeFacts.


(** ** Running a handler body *)

Ltac unfold_m :=
  cbv beta iota delta
    [mbind M_bind mret M_ret raise get_store modify_store require lift
     try_except table_get Notebook_get Source_get Note_get SystemPrompt_get
     ChatSession_get].


Ltac contribution_cases :=
  repeat match goal with
    | H : _ \/ _ |- _ => destruct H
    | H : _ /\ _ |- _ => destruct H
    | H : Some _ = Some _ |- _ => injection H as H; subst
    end;
  try discriminate; try congruence;
  repeat match goal with
    | |- _ /\ _ => split
    | |- exists _, _ => eexists
    end;
  try reflexivity; eauto; try (left; split; [reflexivity | eassumption]);
  try (right; repeat split; eassumption).

(** ** Notebook edges *)
Section NotebookFacts.
Import Notebooks.
Context `{DomainLayer}.

Lemma source_edges_delete st nb src :
  source_edges
    (set_reference
       (delete_edges (reference st) (ensure_record_id nb) (ensure_record_id src)) st)
    nb src = [].
Proof.
  unfold source_edges, delete_edges. simpl.
  rewrite list_filter_filter.
  induction (reference st) as [|e l IH]; [reflexivity|].
  rewrite filter_cons. case_decide as Hd; [|exact IH].
  exfalso. destruct Hd as [[Hin Hout] Hn]. apply Hn. by split.
Qed.

Lemma add_source_run st nb src n s :
  notebook st !! nb = Some n ->
  source st !! src = Some s ->
  add_source_to_notebook nb src st
  = (Ok "Source linked to notebook successfully",
     match select_edges (reference st) (ensure_record_id src) (ensure_record_id nb) with
     | [] => set_reference
               (relate (reference st) (ensure_record_id src) (ensure_record_id nb)) st
     | _ :: _ => st
     end).
Proof.
  intros Hn Hs. unfold add_source_to_notebook, add_source_to_notebook_body.
  unfold_m. rewrite Hn, Hs.
  destruct (select_edges _ _ _); reflexivity.
Qed.

Lemma remove_source_run st nb src n :
  notebook st !! nb = Some n ->
  remove_source_from_notebook nb src st
  = (Ok "Source removed from notebook successfully",
     set_reference
       (delete_edges (reference st) (ensure_record_id nb) (ensure_record_id src)) st).
Proof.
  intros Hn. unfold remove_source_from_notebook, remove_source_from_notebook_body.
  unfold_m. rewrite Hn. reflexivity.
Qed.

(** The existence check of [add_source_to_notebook] looks for an edge from
    the notebook to the source. Where there is none, the handler relates
    the pair again, however many edges already lead from the source to the
    notebook. *)
Lemma add_source_ignores_links st nb src n s :
  notebook st !! nb = Some n ->
  source st !! src = Some s ->
  Forall (fun e => ~ (edge_out e = ensure_record_id src
                      /\ edge_in e = ensure_record_id nb)) (reference st) ->
  add_source_to_notebook nb src st
  = (Ok "Source linked to notebook successfully",
     set_reference
       (relate (reference st) (ensure_record_id src) (ensure_record_id nb)) st).
Proof.
  intros Hn Hs Hnone. rewrite (add_source_run st nb src n s Hn Hs).
  unfold select_edges.
  destruct (filter _ (reference st)) as [|e l] eqn:Hsel; [reflexivity|].
  assert (He : e ∈ filter (fun e => edge_out e = ensure_record_id src
                                    /\ edge_in e = ensure_record_id nb) (reference st))
    by (rewrite Hsel; apply list_elem_of_here).
  apply list_elem_of_filter in He as [Hmatch Hin].
  rewrite Forall_forall in Hnone. destruct (Hnone e Hin Hmatch).
Qed.

(** C5. For an existing notebook and source, adding the source and then
    removing it succeeds twice and leaves no reference edge from that
    source to that notebook, however many such edges there were. *)
Theorem add_then_remove_unlinks (st : Store) (nb src : string) (n : Notebook) (s : Source) :
  notebook st !! nb = Some n ->
  source st !! src = Some s ->
  let '(r1, st1) := add_source_to_notebook nb src st in
  let '(r2, st2) := remove_source_from_notebook nb src st1 in
  r1 = Ok "Source linked to notebook successfully"
  /\ r2 = Ok "Source removed from notebook successfully"
  /\ source_edges st2 nb src = [].
Proof.
  intros Hn Hs. rewrite (add_source_run st nb src n s Hn Hs).
  set (st1 := match select_edges _ _ _ with [] => _ | _ => _ end).
  assert (Hn1 : notebook st1 !! nb = Some n).
  { subst st1. destruct (select_edges _ _ _); exact Hn. }
  rewrite (remove_source_run st1 nb src n Hn1).
  split; [reflexivity|]. split; [reflexivity|]. apply source_edges_delete.
Qed.

End NotebookFacts.

Section NotebookRuns.
Import Notebooks.

(** The round trip at the sample store. *)
Lemma add_then_remove_unlinks_witness :
  notebook Sample.store !! "notebook:n1" = Some Sample.the_notebook
  /\ source Sample.store !! "source:s1" = Some Sample.the_source
  /\ let '(r1, st1) :=
       @add_source_to_notebook Sample.domain "notebook:n1" "source:s1" Sample.store in
     let '(r2, st2) :=
       @remove_source_from_notebook Sample.domain "notebook:n1" "source:s1" st1 in
     r1 = Ok "Source linked to notebook successfully"
     /\ r2 = Ok "Source removed from notebook successfully"
     /\ @source_edges Sample.domain st2 "notebook:n1" "source:s1" = [].
Proof.
  split; [reflexivity|]. split; [reflexivity|].
  apply (@add_then_remove_unlinks Sample.domain Sample.store
           "notebook:n1" "source:s1" Sample.the_notebook Sample.the_source);
    reflexivity.
Defined.

(** C9. [add_source_to_notebook] is meant to be idempotent, but its
    existence check reads [out = $source_id AND in = $notebook_id] while
    the edge it writes has [in = source] and [out = notebook]: at the
    sample store two calls for the same pair both succeed and leave two
    reference edges from the source to the notebook. *)
Theorem add_source_twice_two_edges :
  let '(r1, st1) :=
    @add_source_to_notebook Sample.domain "notebook:n1" "source:s1" Sample.store in
  let '(r2, st2) :=
    @add_source_to_notebook Sample.domain "notebook:n1" "source:s1" st1 in
  r1 = Ok "Source linked to notebook successfully"
  /\ r2 = Ok "Source linked to notebook successfully"
  /\ @source_edges Sample.domain st1 "notebook:n1" "source:s1"
     = [{| edge_in := "source:s1"; edge_out := "notebook:n1" |}]
  /\ @source_edges Sample.domain st2 "notebook:n1" "source:s1"
     = [{| edge_in := "source:s1"; edge_out := "notebook:n1" |};
        {| edge_in := "source:s1"; edge_out := "notebook:n1" |}].
Proof. vm_compute. repeat split. Qed.

End NotebookRuns.

(** ** Chat sessions *)
Section SessionFacts.
Import Graph Chat.
Context `{Externals} `{DomainLayer}.

Lemma or_str_Some_empty (x : string) : or_str (Some x) "" = x.
Proof. destruct x; reflexivity. Qed.

(** When the domain layer answers a missing notebook with [None], the 404
    raised by the guard is caught by the handler's own [except Exception]
    and goes out as a 500. *)
Lemma create_session_falsy_lookup now loop_time request st :
  on_missing = ReturnsNone ->
  notebook st !! csr_notebook_id request = None ->
  create_session now loop_time request st
  = (Fail 500 "Error creating chat session: 404: Notebook not found", st).
Proof.
  intros Hsig Hmiss. unfold create_session, create_session_body.
  unfold_m. rewrite Hmiss, Hsig. reflexivity.
Qed.

(** C7. A chat session is created for a notebook: when the notebook does
    not exist (the lookup raises [NotFoundError]) the endpoint answers 404
    and the store is unchanged; when it exists, a session is saved under
    the id allotted by the database, a [refers_to] edge leads from that
    session to the notebook, and the response carries the session id and
    the requested notebook id. *)
Theorem create_session_for_notebook now loop_time request st :
  (on_missing = RaisesNotFoundError ->
   notebook st !! csr_notebook_id request = None ->
   create_session now loop_time request st = (Fail 404 "Notebook not found", st))
  /\ (forall n, notebook st !! csr_notebook_id request = Some n ->
      exists resp st' session,
        create_session now loop_time request st = (Ok resp, st')
        /\ rs_id resp = new_session_id st
        /\ rs_notebook_id resp = Some (csr_notebook_id request)
        /\ chat_session st' = <[rs_id resp := session]> (chat_session st)
        /\ cs_id session = Some (rs_id resp)
        /\ cs_model_override session = csr_model_override request
        /\ refers_to st'
           = app (refers_to st)
               [{| edge_in := ensure_record_id (rs_id resp);
                   edge_out := ensure_record_id (csr_notebook_id request) |}]).
Proof.
  split.
  - intros Hsig Hmiss. unfold create_session, create_session_body.
    unfold_m. rewrite Hmiss, Hsig. reflexivity.
  - intros n Hn. unfold create_session, create_session_body, ChatSession_save,
      relate_to_notebook.
    unfold_m. rewrite Hn. cbn [cs_id default].
    eexists _, _, _. split; [reflexivity|].
    cbn. rewrite or_str_Some_empty. repeat split; reflexivity.
Qed.


Lemma resolve_custom_system_prompt_orphan request st :
  resolve_custom_system_prompt request None st = (inr None, st).
Proof. reflexivity. Qed.

(** Steps 1 to 4 on a session that exists, once step 2 and the log line
    raise nothing. *)
Lemma execute_chat_prepare_run request st session custom :
  chat_session st !! full_session_id (ec_session_id request) = Some session ->
  resolve_custom_system_prompt request
    (head (select_out_where_in (refers_to st)
             (ensure_record_id (full_session_id (ec_session_id request))))) st
  = (inr custom, st) ->
  log_context_info (ec_context request) st = (inr tt, st) ->
  exists sv cfg,
    execute_chat_prepare request st = (inr (session, sv, cfg), st)
    /\ ts_custom_system_prompt sv = custom
    /\ ts_model_override sv
       = match ec_model_override request with
         | Some m => Some m
         | None => cs_model_override session
         end
    /\ model_id cfg = ts_model_override sv
    /\ thread_id cfg = Some (ec_session_id request)
    /\ ts_context sv = Some (ec_context request)
    /\ ts_include_citations sv = Some (Some (ec_include_citations request)).
Proof.
  intros Hs Hres Hlog. unfold execute_chat_prepare. unfold_m.
  rewrite Hs, Hres, Hlog. eexists _, _. split; [reflexivity|].
  repeat split.
Qed.


(** C1. The model id of the provisioning call of a chat request is the
    request's [model_override] when it is given, otherwise the one stored
    with the session; when neither is given no model id is passed and the
    choice is left to [provision_langchain_model]. Neither the notebook nor
    its active prompt takes part. *)
Theorem model_override_chain request st session custom :
  chat_session st !! full_session_id (ec_session_id request) = Some session ->
  resolve_custom_system_prompt request
    (head (select_out_where_in (refers_to st)
             (ensure_record_id (full_session_id (ec_session_id request))))) st
  = (inr custom, st) ->
  log_context_info (ec_context request) st = (inr tt, st) ->
  exists p,
    execute_chat_provisioning request st = Some p
    /\ pv_model_id p
       = match ec_model_override request with
         | Some m => Some m
         | None => cs_model_override session
         end
    /\ pv_default_type p = "chat".
Proof.
  intros Hs Hres Hlog.
  destruct (execute_chat_prepare_run request st session custom Hs Hres Hlog)
    as (sv & cfg & Hrun & _ & Hmo & Hcfg & _).
  unfold execute_chat_provisioning. rewrite Hrun.
  eexists. split; [reflexivity|]. split; [|reflexivity].
  cbn. unfold resolve_model_id. cbn. rewrite Hcfg, py_or_same. exact Hmo.
Qed.

Lemma full_session_id_idem sid : full_session_id (full_session_id sid) = full_session_id sid.
Proof.
  unfold full_session_id at 2 3.
  destruct (startswith sid "chat_session:") eqn:Hp.
  - unfold full_session_id. by rewrite Hp.
  - unfold full_session_id. by rewrite startswith_append.
Qed.

(** C10. The session endpoints prefix a bare identifier before the session
    lookup and the notebook query, so a bare and a prefixed identifier
    address the same record: [update_session] and [delete_session] answer
    and act alike, [get_session] answers the same session fields, and
    [execute_chat] prepares the same session, model and custom prompt. The
    checkpointed thread is read under the identifier as given: the two
    [get_session] answers are equal when both spellings hold the same
    checkpoint, and [execute_chat] runs the thread named by the request. *)
Theorem session_id_prefixing now sid st :
  let full := full_session_id sid in
  (forall request, update_session now sid request st = update_session now full request st)
  /\ delete_session sid st = delete_session full st
  /\ session_fields (get_session now sid st).1 = session_fields (get_session now full st).1
  /\ (checkpoints st !! sid = checkpoints st !! full ->
      get_session now sid st = get_session now full st)
  /\ (forall request session sv cfg st',
        ec_session_id request = sid ->
        execute_chat_prepare request st = (inr (session, sv, cfg), st') ->
        exists sv' cfg',
          execute_chat_prepare (with_session_id full request) st
          = (inr (session, sv', cfg'), st')
          /\ ts_custom_system_prompt sv' = ts_custom_system_prompt sv
          /\ ts_model_override sv' = ts_model_override sv
          /\ model_id cfg' = model_id cfg
          /\ thread_id cfg = Some sid
          /\ thread_id cfg' = Some full).
Proof.
  intros full. pose proof (full_session_id_idem sid) as Hidem. fold full in Hidem.
  repeat split.
  - intros request. unfold update_session, update_session_body.
    rewrite Hidem. reflexivity.
  - unfold delete_session, delete_session_body. rewrite Hidem. reflexivity.
  - unfold get_session, get_session_body. rewrite Hidem. fold full. unfold_m.
    destruct (chat_session st !! full); [reflexivity|].
    destruct on_missing; reflexivity.
  - intros Hcp. unfold get_session, get_session_body. rewrite Hidem. fold full.
    unfold_m.
    destruct (chat_session st !! full); [|destruct on_missing; reflexivity].
    cbn. rewrite Hcp. reflexivity.
  - intros request session sv cfg st' Hsid.
    unfold execute_chat_prepare. cbn [with_session_id ec_session_id ec_model_override
      ec_context ec_message ec_include_citations]. rewrite Hsid, Hidem. fold full.
    unfold_m.
    destruct (chat_session st !! full) as [s|]; [|destruct on_missing; discriminate].
    replace (resolve_custom_system_prompt (with_session_id full request))
      with (resolve_custom_system_prompt request) by reflexivity.
    destruct (resolve_custom_system_prompt request _ st) as [[e|c] st1]; [discriminate|].
    destruct (log_context_info (ec_context request) st1) as [[e|[]] st2]; [discriminate|].
    intros [= <- <- <- <-]. eexists _, _. split; [reflexivity|]. repeat split.
Qed.

End SessionFacts.

(** ** The session theorems at the sample store *)
Section SessionRuns.
Import Graph Chat.

Abbreviation prepare := (@execute_chat_prepare Sample.externals Sample.domain).
Abbreviation provisioning_of := (@execute_chat_provisioning Sample.externals Sample.domain).

(** A request with its own model, on a session without one. *)
Lemma model_override_chain_witness :
  chat_session Sample.store !! full_session_id "abc" = Some Sample.the_session
  /\ exists p,
       provisioning_of Sample.chat_request_model Sample.store = Some p
       /\ pv_model_id p = Some "model:request"
       /\ pv_default_type p = "chat".
Proof.
  split; [reflexivity|].
  apply (@model_override_chain Sample.externals Sample.domain
           Sample.chat_request_model Sample.store Sample.the_session
           (Some "You are a poet.")); reflexivity.
Defined.

(** C1, as first stated, fails: the sample notebook has an active prompt,
    the request and the session name no model, and the provisioning call
    gets no model id; under the four-level chain it would get the active
    prompt's model, whichever that is. *)
Lemma model_chain_counterexample :
  exists p,
    provisioning_of Sample.chat_request Sample.store = Some p
    /\ nb_active_prompt_id Sample.the_notebook = Some "system_prompt:p1"
    /\ pv_model_id p = None
    /\ forall m notebook_default,
         spec_model_chain (ec_model_override Sample.chat_request)
           (cs_model_override Sample.the_session) (Some m) notebook_default
         <> pv_model_id p.
Proof.
  eexists. split; [vm_compute; reflexivity|].
  split; [reflexivity|]. split; [reflexivity|].
  intros m d. discriminate.
Qed.

(** Creating a session at the sample store: for a notebook that is not
    there, and for the sample notebook. *)
Lemma create_session_for_notebook_witness :
  @create_session Sample.domain "2025-01-03" "42" Sample.create_request_missing
    Sample.store
  = (Fail 404 "Notebook not found", Sample.store)
  /\ exists resp st' session,
       @create_session Sample.domain "2025-01-03" "42" Sample.create_request
         Sample.store = (Ok resp, st')
       /\ rs_notebook_id resp = Some "notebook:n1"
       /\ chat_session st' !! rs_id resp = Some session
       /\ {| edge_in := rs_id resp; edge_out := "notebook:n1" |} ∈ refers_to st'.
Proof.
  split.
  - apply (proj1 (@create_session_for_notebook Sample.domain "2025-01-03" "42"
                    Sample.create_request_missing Sample.store)); reflexivity.
  - destruct (proj2 (@create_session_for_notebook Sample.domain "2025-01-03" "42"
                       Sample.create_request Sample.store)
                Sample.the_notebook eq_refl)
      as (resp & st' & session & Hrun & _ & Hnb & Hsaved & _ & _ & Hedge).
    exists resp, st', session. split; [exact Hrun|]. split; [exact Hnb|]. split.
    + rewrite Hsaved. apply lookup_insert_eq.
    + rewrite Hedge. apply elem_of_app. right. apply list_elem_of_singleton.
      reflexivity.
Defined.



(** With no checkpointed thread, the bare and the prefixed identifier get
    the same answer from [get_session]. *)
Lemma session_id_prefixing_witness :
  checkpoints Sample.fresh_store !! "abc"
  = checkpoints Sample.fresh_store !! full_session_id "abc"
  /\ @get_session Sample.domain "2025-01-03" "abc" Sample.fresh_store
     = @get_session Sample.domain "2025-01-03" "chat_session:abc" Sample.fresh_store.
Proof.
  split; [reflexivity|].
  apply (@session_id_prefixing Sample.externals Sample.domain
           "2025-01-03" "abc" Sample.fresh_store).
  reflexivity.
Defined.

(** C10, as first stated, fails: the thread of the sample session was
    checkpointed under the prefixed identifier, and [get_session] finds its
    message only when called with that spelling. *)
Lemma session_id_prefix_counterexample :
  rsm_messages <$> (match (@get_session Sample.domain "2025-01-03" "abc" Sample.store).1
                    with Ok a => Some a | Fail _ _ => None end)
  = Some []
  /\ rsm_messages <$> (match (@get_session Sample.domain "2025-01-03"
                               "chat_session:abc" Sample.store).1
                       with Ok a => Some a | Fail _ _ => None end)
     = Some [{| cm_id := "m1"; cm_type := "human"; cm_content := "Hello";
                cm_timestamp := Some "2025-01-03" |}]
  /\ (@get_session Sample.domain "2025-01-03" "abc" Sample.store).1
     <> (@get_session Sample.domain "2025-01-03" "chat_session:abc" Sample.store).1.
Proof.
  split; [vm_compute; reflexivity|]. split; [vm_compute; reflexivity|].
  vm_compute. intros [=].
Qed.

End SessionRuns.

(** ** Context selection *)
Section ContextFacts.
Import Graph Chat.
Context `{DomainLayer}.

Lemma add_source_context_acc (c : option SourceContext) (acc : Built) :
  add_source_context c acc
  = {| b_sources := app (b_sources acc) (option_list c);
       b_notes := b_notes acc;
       b_total_content :=
         b_total_content acc +:+ join (source_context_str <$> option_list c) |}.
Proof.
  destruct acc as [ss ns t], c as [c|]; cbn.
  - unfold append_source. cbn. by rewrite append_empty_r.
  - by rewrite app_nil_r, append_empty_r.
Qed.

Lemma add_note_context_acc (c : option NoteContext) (acc : Built) :
  add_note_context c acc
  = {| b_sources := b_sources acc;
       b_notes := app (b_notes acc) (option_list c);
       b_total_content :=
         b_total_content acc +:+ join (note_context_str <$> option_list c) |}.
Proof.
  destruct acc as [ss ns t], c as [c|]; cbn.
  - unfold append_note. cbn. by rewrite append_empty_r.
  - by rewrite app_nil_r, append_empty_r.
Qed.

Lemma process_source_acc st acc entry :
  process_source st acc entry = add_source_context (source_contribution st entry) acc.
Proof.
  destruct entry as [id status]. unfold source_contribution, process_source.
  destruct (contains "not in" status); [reflexivity|].
  destruct (Source_get _ st) as [[e|[src|]] st'];
    destruct (contains "insights" status), (contains "full content" status);
    try reflexivity;
    try (destruct (so_short src); reflexivity);
    try (destruct (so_long src); reflexivity).
Qed.

Lemma process_note_acc st acc entry :
  process_note st acc entry = add_note_context (note_contribution st entry) acc.
Proof.
  destruct entry as [id status]. unfold note_contribution, process_note.
  destruct (contains "not in" status); [reflexivity|].
  destruct (Note_get _ st) as [[e|[nt|]] st'];
    destruct (contains "full content" status);
    try reflexivity; destruct (no_long nt); reflexivity.
Qed.

Lemma omap_cons_option_list {A B : Type} (f : A -> option B) (x : A) (l : list A) :
  omap f (x :: l) = app (option_list (f x)) (omap f l).
Proof. cbn. destruct (f x); reflexivity. Qed.

Lemma fold_add_source_contexts {A : Type} (f : A -> option SourceContext) (l : list A) :
  forall acc,
    fold_left (fun acc x => add_source_context (f x) acc) l acc
    = {| b_sources := app (b_sources acc) (omap f l);
         b_notes := b_notes acc;
         b_total_content :=
           b_total_content acc +:+ join (source_context_str <$> omap f l) |}.
Proof.
  induction l as [|x l IH]; intros acc.
  - destruct acc; cbn. by rewrite app_nil_r, append_empty_r.
  - cbn [fold_left]. rewrite IH, add_source_context_acc, omap_cons_option_list.
    cbn [b_sources b_notes b_total_content].
    by rewrite fmap_app, join_app, append_assoc, <- app_assoc.
Qed.

Lemma fold_add_note_contexts {A : Type} (f : A -> option NoteContext) (l : list A) :
  forall acc,
    fold_left (fun acc x => add_note_context (f x) acc) l acc
    = {| b_sources := b_sources acc;
         b_notes := app (b_notes acc) (omap f l);
         b_total_content :=
           b_total_content acc +:+ join (note_context_str <$> omap f l) |}.
Proof.
  induction l as [|x l IH]; intros acc.
  - destruct acc; cbn. by rewrite app_nil_r, append_empty_r.
  - cbn [fold_left]. rewrite IH, add_note_context_acc, omap_cons_option_list.
    cbn [b_sources b_notes b_total_content].
    by rewrite fmap_app, join_app, append_assoc, <- app_assoc.
Qed.

Lemma fold_process_sources st l acc :
  fold_left (process_source st) l acc
  = fold_left (fun acc x => add_source_context (source_contribution st x) acc) l acc.
Proof.
  revert acc. induction l as [|x l IH]; intros acc; [reflexivity|].
  cbn [fold_left]. by rewrite process_source_acc, IH.
Qed.

Lemma fold_process_notes st l acc :
  fold_left (process_note st) l acc
  = fold_left (fun acc x => add_note_context (note_contribution st x) acc) l acc.
Proof.
  revert acc. induction l as [|x l IH]; intros acc; [reflexivity|].
  cbn [fold_left]. by rewrite process_note_acc, IH.
Qed.

Lemma build_context_configured request st n :
  notebook st !! bc_notebook_id request = Some n ->
  config_truthy (bc_context_config request) = true ->
  build_context request st
  = (Ok (counted
           (omap (source_contribution st)
                 (default [] (cc_sources (bc_context_config request))))
           (omap (note_contribution st)
                 (default [] (cc_notes (bc_context_config request))))), st).
Proof.
  intros Hn Hcfg. unfold build_context, build_context_body. unfold_m.
  rewrite Hn, Hcfg.
  rewrite fold_process_notes, fold_process_sources.
  rewrite fold_add_note_contexts, fold_add_source_contexts.
  reflexivity.
Qed.

Lemma build_context_default request st n srcs nts :
  notebook st !! bc_notebook_id request = Some n ->
  config_truthy (bc_context_config request) = false ->
  get_sources st n = inr srcs ->
  get_notes st n = inr nts ->
  build_context request st
  = (Ok (counted (omap so_short srcs) (omap no_short nts)), st).
Proof.
  intros Hn Hcfg Hs Hnt. unfold build_context, build_context_body. unfold_m.
  rewrite Hn, Hcfg, Hs, Hnt.
  rewrite fold_add_note_contexts, fold_add_source_contexts.
  reflexivity.
Qed.

Lemma source_contribution_spec st id status c :
  source_contribution st (id, status) = Some c
  <-> contains "not in" status = false
      /\ exists src,
           source st !! full_source_id id = Some src
           /\ ((contains "insights" status = true /\ so_short src = Some c)
               \/ (contains "insights" status = false
                   /\ contains "full content" status = true
                   /\ so_long src = Some c)).
Proof.
  unfold source_contribution, process_source, Source_get. unfold_m.
  fold (full_source_id id).
  destruct (contains "not in" status).
  { cbn. split; [discriminate | intros [? _]; discriminate]. }
  destruct (source st !! full_source_id id) as [src|].
  - destruct (contains "insights" status), (contains "full content" status),
      (so_short src) as [cs|] eqn:Hshort, (so_long src) as [cl|] eqn:Hlong;
      cbn; (split; [intros Hc | intros (_ & src' & Hsrc & Hsel)]);
      contribution_cases.
  - destruct on_missing; cbn;
      destruct (contains "insights" status), (contains "full content" status); cbn;
      (split; [discriminate | intros (_ & src' & ? & _); discriminate]).
Qed.

Lemma note_contribution_spec st id status c :
  note_contribution st (id, status) = Some c
  <-> contains "not in" status = false
      /\ contains "full content" status = true
      /\ exists nt, note st !! full_note_id id = Some nt /\ no_long nt = Some c.
Proof.
  unfold note_contribution, process_note, Note_get. unfold_m.
  fold (full_note_id id).
  destruct (contains "not in" status).
  { cbn. split; [discriminate | intros [? _]; discriminate]. }
  destruct (note st !! full_note_id id) as [nt|].
  - destruct (contains "full content" status), (no_long nt) as [cl|] eqn:Hlong;
      cbn; (split; [intros Hc | intros (_ & Hfull & nt' & Hsrc & Hsel)]);
      contribution_cases.
  - destruct on_missing; cbn; destruct (contains "full content" status); cbn;
      (split; [discriminate | intros (_ & _ & nt' & ? & _); discriminate]).
Qed.

Lemma contribution_none_not_in st id status :
  contains "not in" status = true ->
  source_contribution st (id, status) = None /\ note_contribution st (id, status) = None.
Proof.
  intros Hni. unfold source_contribution, note_contribution, process_source, process_note.
  by rewrite Hni.
Qed.

(** C3. With a context configuration: an entry whose status contains
    "not in" contributes nothing (taking it out of the configuration
    leaves the answer as it is); the returned sources are exactly, for the
    configured sources that load, the short context when the status
    contains "insights" and the long context when it contains
    "full content" and not "insights"; the returned notes are exactly the
    long contexts of the configured notes that load and whose status
    contains "full content". With an empty configuration every source and
    every note of the notebook comes with its short context. *)
Theorem build_context_selection request st n :
  notebook st !! bc_notebook_id request = Some n ->
  let config := bc_context_config request in
  (config_truthy config = true ->
   exists resp,
     build_context request st = (Ok resp, st)
     /\ (forall l1 id status l2,
           cc_sources config = Some (l1 ++ (id, status) :: l2)%list ->
           contains "not in" status = true ->
           build_context (with_sources (l1 ++ l2)%list request) st = (Ok resp, st))
     /\ (forall l1 id status l2,
           cc_notes config = Some (l1 ++ (id, status) :: l2)%list ->
           contains "not in" status = true ->
           build_context (with_notes (l1 ++ l2)%list request) st = (Ok resp, st))
     /\ (forall c,
           c ∈ br_sources resp
           <-> exists id status src,
                 (id, status) ∈ default [] (cc_sources config)
                 /\ contains "not in" status = false
                 /\ source st !! full_source_id id = Some src
                 /\ ((contains "insights" status = true /\ so_short src = Some c)
                     \/ (contains "insights" status = false
                         /\ contains "full content" status = true
                         /\ so_long src = Some c)))
     /\ (forall c,
           c ∈ br_notes resp
           <-> exists id status nt,
                 (id, status) ∈ default [] (cc_notes config)
                 /\ contains "not in" status = false
                 /\ contains "full content" status = true
                 /\ note st !! full_note_id id = Some nt
                 /\ no_long nt = Some c))
  /\ (config_truthy config = false ->
      forall srcs nts,
        get_sources st n = inr srcs ->
        get_notes st n = inr nts ->
        exists resp,
          build_context request st = (Ok resp, st)
          /\ br_sources resp = omap so_short srcs
          /\ br_notes resp = omap no_short nts).
Proof.
  intros Hn config. split.
  - intros Hcfg. eexists. split; [exact (build_context_configured request st n Hn Hcfg)|].
    split; [|split; [|split]].
    + intros l1 id status l2 Hsrc Hni.
      rewrite (build_context_configured (with_sources (l1 ++ l2) request) st n Hn);
        [|reflexivity].
      cbn [with_sources bc_context_config cc_sources cc_notes default].
      fold config. rewrite Hsrc. cbn [default]. unfold Datatypes.id.
      rewrite !omap_app, omap_cons_option_list.
      destruct (contribution_none_not_in st id status Hni) as [-> _]. reflexivity.
    + intros l1 id status l2 Hnts Hni.
      rewrite (build_context_configured (with_notes (l1 ++ l2) request) st n Hn).
      * cbn [with_notes bc_context_config cc_sources cc_notes default].
        fold config. rewrite Hnts. cbn [default]. unfold Datatypes.id.
        rewrite !omap_app, omap_cons_option_list.
        destruct (contribution_none_not_in st id status Hni) as [_ ->]. reflexivity.
      * unfold config_truthy. cbn [with_notes bc_context_config cc_notes].
        rewrite (bool_decide_true (is_Some (Some _))); [|by eexists].
        by rewrite orb_true_r.
    + intros c. cbn [counted br_sources]. rewrite list_elem_of_omap. split.
      * intros ([id status] & Hin & Hc). apply source_contribution_spec in Hc.
        destruct Hc as (Hni & src & Hsrc & Hsel). by exists id, status, src.
      * intros (id & status & src & Hin & Hni & Hsrc & Hsel).
        exists (id, status). split; [exact Hin|].
        apply source_contribution_spec. eauto.
    + intros c. cbn [counted br_notes]. rewrite list_elem_of_omap. split.
      * intros ([id status] & Hin & Hc). apply note_contribution_spec in Hc.
        destruct Hc as (Hni & Hfull & nt & Hnt & Hlong). by exists id, status, nt.
      * intros (id & status & nt & Hin & Hni & Hfull & Hnt & Hlong).
        exists (id, status). split; [exact Hin|].
        apply note_contribution_spec. eauto.
  - intros Hcfg srcs nts Hs Hnt. eexists.
    split; [exact (build_context_default request st n srcs nts Hn Hcfg Hs Hnt)|].
    split; reflexivity.
Qed.

End ContextFacts.

Section ContextRuns.
Import Graph Chat.

(** Context selection at the sample store: the short context of the source
    for "insights", its long context for "full content", the long context
    of the note. *)
Lemma build_context_selection_witness :
  notebook Sample.store !! "notebook:n1" = Some Sample.the_notebook
  /\ config_truthy (bc_context_config Sample.context_request) = true
  /\ exists resp,
       @build_context Sample.domain Sample.context_request Sample.store
       = (Ok resp, Sample.store)
       /\ Sample.source_context ∈ br_sources resp
       /\ (exists c, so_short Sample.the_source = Some c /\ c ∈ br_sources resp)
       /\ Sample.note_context ∈ br_notes resp.
Proof.
  split; [reflexivity|]. split; [reflexivity|].
  destruct (proj1 (@build_context_selection Sample.domain Sample.context_request
                     Sample.store Sample.the_notebook eq_refl) eq_refl)
    as (resp & Hrun & _ & _ & Hsources & Hnotes).
  exists resp. split; [exact Hrun|]. split; [|split].
  - apply Hsources. exists "source:s1", "full content", Sample.the_source.
    split; [apply list_elem_of_further, list_elem_of_here|].
    split; [reflexivity|]. split; [reflexivity|]. right. repeat split.
  - eexists. split; [reflexivity|].
    apply Hsources. exists "s1", "insights", Sample.the_source.
    split; [apply list_elem_of_here|].
    split; [reflexivity|]. split; [reflexivity|]. left. split; reflexivity.
  - apply Hnotes. exists "n1", "full content", Sample.the_note.
    split; [apply list_elem_of_here|]. repeat split.
Defined.

End ContextRuns.

(** ** The chat node without citations *)
Section UncitedFacts.
Import Graph Uncited.
Context `{Externals}.

Lemma add_insight_plain_section acc i :
  add_insight_plain acc i = acc +:+ insight_section false i.
Proof. exact (add_insight_section false acc i). Qed.

Lemma fold_insights_plain l : forall acc,
  fold_left add_insight_plain l acc = acc +:+ join (insight_section false <$> l).
Proof.
  induction l as [|i l IH]; intros acc; simpl.
  - by rewrite append_empty_r.
  - by rewrite IH, add_insight_plain_section, append_assoc.
Qed.

Lemma add_source_plain_section acc src :
  add_source_plain acc src = acc +:+ source_section false src.
Proof.
  unfold add_source_plain, source_section, full_text_section, id_tag.
  destruct src as [sid stitle stext sins]; simpl.
  destruct sins as [ins|]; simpl; rewrite ?fold_insights_plain;
    destruct stext as [t|]; simpl;
    rewrite ?append_assoc; simpl; rewrite ?append_empty_r; reflexivity.
Qed.

Lemma add_note_plain_section acc n :
  add_note_plain acc n = acc +:+ note_section false n.
Proof. exact (add_note_section false acc n). Qed.

Lemma plain_context_str_layout ctx :
  plain_context_str ctx
  = join (source_section false <$> sources_of ctx)
    +:+ join (note_section false <$> notes_of ctx).
Proof.
  unfold plain_context_str.
  assert (Hs : forall l acc,
             fold_left add_source_plain l acc
             = acc +:+ join (source_section false <$> l)).
  { induction l as [|s l IH]; intros acc; simpl.
    - by rewrite append_empty_r.
    - by rewrite IH, add_source_plain_section, append_assoc. }
  assert (Hn : forall l acc,
             fold_left add_note_plain l acc
             = acc +:+ join (note_section false <$> l)).
  { induction l as [|s l IH]; intros acc; simpl.
    - by rewrite append_empty_r.
    - by rewrite IH, add_note_plain_section, append_assoc. }
  by rewrite Hs, Hn.
Qed.

(** X1. The default-template branch without citations writes its own
    loops over the sources, their insights and the notes; they build the
    very context string that the custom-prompt branch builds with
    citations off. *)
Theorem plain_context_str_uncited (ctx : option ContextData) :
  plain_context_str ctx = custom_context_str false ctx.
Proof. by rewrite plain_context_str_layout, custom_context_str_layout. Qed.

(** X2. With no usable custom prompt and citations off, the node never
    asks the prompt template: over a context with a source or a note the
    system message is the fixed introduction, the context heading, the
    source and note sections without any ID, and the closing request not
    to cite; over an empty context it is the one-sentence greeting. *)
Theorem default_uncited_system_prompt (state : ThreadState) :
  truthy (ts_custom_system_prompt state) = false ->
  get_include_citations state = false ->
  let sources := sources_of (ts_context state) in
  let notes := notes_of (ts_context state) in
  (sources <> [] \/ notes <> [] ->
   system_prompt state
   = "You are a helpful AI assistant. Use the context information below to answer questions accurately."
     +:+ NL +:+ NL +:+ "# Context Information" +:+ NL
     +:+ join (source_section false <$> sources)
     +:+ join (note_section false <$> notes)
     +:+ NL +:+ NL
     +:+ "Please provide your answers based on the context provided. Respond naturally without including document references or IDs.")
  /\ (sources = [] -> notes = [] ->
      system_prompt state = "You are a helpful AI assistant.").
Proof.
  intros Hcustom Hcit sources notes. unfold system_prompt.
  rewrite Hcustom, Hcit. rewrite plain_context_str_layout.
  fold sources notes. split.
  - intros Hctx.
    assert (Ht : str_truthy (join (source_section false <$> sources)
                             +:+ join (note_section false <$> notes)) = true).
    { rewrite str_truthy_append.
      destruct sources as [|s l]; [|reflexivity].
      destruct notes as [|n l]; [|reflexivity].
      destruct Hctx; contradiction. }
    rewrite Ht. rewrite !append_assoc. reflexivity.
  - intros Hs Hn. rewrite Hs, Hn. reflexivity.
Qed.

Lemma insight_sections_erased l :
  insight_section false <$> List.map erase_insight l = insight_section false <$> l.
Proof. induction l as [|i l IH]; [reflexivity|]. cbn. by rewrite IH. Qed.

Lemma source_section_erased s :
  source_section false (erase_source s) = source_section false s.
Proof.
  unfold source_section. destruct s as [sid t ft ins]. cbn.
  destruct ins as [l|]; cbn; [by rewrite insight_sections_erased | reflexivity].
Qed.

Lemma source_sections_erased l :
  source_section false <$> List.map erase_source l = source_section false <$> l.
Proof.
  induction l as [|s l IH]; [reflexivity|]. cbn.
  by rewrite IH, source_section_erased.
Qed.

Lemma note_sections_erased l :
  note_section false <$> List.map erase_note l = note_section false <$> l.
Proof. induction l as [|n l IH]; [reflexivity|]. cbn. by rewrite IH. Qed.

Lemma sources_of_erased ctx :
  sources_of (option_map erase_context ctx) = List.map erase_source (sources_of ctx).
Proof. destruct ctx as [[[l|] n]|]; reflexivity. Qed.

Lemma notes_of_erased ctx :
  notes_of (option_map erase_context ctx) = List.map erase_note (notes_of ctx).
Proof. destruct ctx as [[s [l|]]|]; reflexivity. Qed.

Lemma system_prompt_erased state :
  get_include_citations state = false ->
  system_prompt (erase_ids state) = system_prompt state.
Proof.
  intros Hcit. unfold system_prompt.
  replace (get_include_citations (erase_ids state)) with false by (symmetry; exact Hcit).
  rewrite Hcit. cbn [erase_ids ts_custom_system_prompt ts_context].
  rewrite !custom_context_str_layout, !plain_context_str_layout.
  rewrite sources_of_erased, notes_of_erased.
  by rewrite source_sections_erased, note_sections_erased.
Qed.

(** X3. With citations off, document ids have no influence on the system
    message: two thread states that differ only in the ids of their
    sources, insights and notes get the same system message. *)
Theorem uncited_prompt_ignores_ids (s1 s2 : ThreadState) :
  get_include_citations s1 = false ->
  erase_ids s1 = erase_ids s2 ->
  system_prompt s1 = system_prompt s2.
Proof.
  intros Hcit Heq.
  assert (Hcit2 : get_include_citations s2 = false).
  { unfold get_include_citations in *.
    replace (ts_include_citations s2) with (ts_include_citations (erase_ids s2))
      by reflexivity.
    rewrite <- Heq. exact Hcit. }
  rewrite <- (system_prompt_erased s1 Hcit), <- (system_prompt_erased s2 Hcit2).
  by rewrite Heq.
Qed.

End UncitedFacts.

(** ** More on the chat handlers *)
Section ChatMore.
Import Graph Chat.
Context `{Externals} `{DomainLayer}.

Lemma fold_append_indexed {A B : Type} (g : nat -> A -> B) (l : list A) :
  forall acc : list B,
    fold_left (fun (acc : list B) (x : A) => app acc [g (List.length acc) x]) l acc
    = app acc (imap (fun i => g (List.length acc + i)) l).
Proof.
  induction l as [|x l IH]; intros acc.
  - cbn. by rewrite app_nil_r.
  - cbn [fold_left]. rewrite IH, imap_cons, <- app_assoc. cbn [app].
    rewrite Nat.add_0_r. do 2 f_equal.
    apply imap_ext. intros i y _. cbn. rewrite length_app. cbn.
    f_equal. lia.
Qed.

Lemma to_chat_messages_imap now msgs :
  to_chat_messages now msgs
  = imap (fun i msg =>
            {| cm_id := default ("msg_" +:+ pretty i) (m_id msg);
               cm_type := default "unknown" (m_type msg);
               cm_content := default (m_str msg) (m_content msg);
               cm_timestamp := Some now |}) msgs.
Proof.
  unfold to_chat_messages.
  rewrite (fold_append_indexed
             (fun i msg =>
                {| cm_id := default ("msg_" +:+ pretty i) (m_id msg);
                   cm_type := default "unknown" (m_type msg);
                   cm_content := default (m_str msg) (m_content msg);
                   cm_timestamp := Some now |})).
  reflexivity.
Qed.

(** X4. The loop that converts graph messages keeps their number and
    order, stamps each with the current time, and gives a message without
    an id the name "msg_" followed by its position in the whole list. *)
Theorem to_chat_messages_positions (now : string) (msgs : list Message) :
  List.length (to_chat_messages now msgs) = List.length msgs
  /\ forall i,
       to_chat_messages now msgs !! i
       = (fun msg =>
            {| cm_id := default ("msg_" +:+ pretty i) (m_id msg);
               cm_type := default "unknown" (m_type msg);
               cm_content := default (m_str msg) (m_content msg);
               cm_timestamp := Some now |}) <$> msgs !! i.
Proof.
  rewrite to_chat_messages_imap. split.
  - apply length_imap.
  - intros i. apply list_lookup_imap.
Qed.

Lemma resolve_custom_system_prompt_unchanged request nid st :
  (resolve_custom_system_prompt request nid st).2 = st.
Proof.
  unfold resolve_custom_system_prompt. destruct nid as [nid|]; [|reflexivity].
  unfold_m.
  destruct (notebook st !! nid) as [n|]; [|destruct on_missing; reflexivity].
  destruct (truthy (ec_prompt_id request));
    try (destruct (Db.system_prompt st !! default "" (ec_prompt_id request)) as [sp|];
         [|destruct on_missing]);
    repeat (cbn; match goal with
      | |- context [if ?b then _ else _] => destruct b
      | |- context [get_active_prompt st n] =>
          destruct (get_active_prompt st n) as [?|[?|]]
      end);
    reflexivity.
Qed.

Lemma log_context_info_unchanged context st :
  (log_context_info context st).2 = st.
Proof.
  unfold log_context_info.
  destruct (default [] (cd_sources context)) as [|first rest]; [reflexivity|].
  destruct (dict_get (sc_title first) "No title"); reflexivity.
Qed.

Lemma execute_chat_prepare_unchanged request st :
  (execute_chat_prepare request st).2 = st.
Proof.
  unfold execute_chat_prepare. unfold_m.
  destruct (chat_session st !! full_session_id (ec_session_id request)) as [s|];
    [|destruct on_missing; reflexivity].
  pose proof (resolve_custom_system_prompt_unchanged request
                (head (select_out_where_in (refers_to st)
                         (ensure_record_id (full_session_id (ec_session_id request)))))
                st) as Hres.
  destruct (resolve_custom_system_prompt request _ st) as [[e|c] st1];
    cbn in Hres; subst st1; [reflexivity|].
  pose proof (log_context_info_unchanged (ec_context request) st) as Hlog.
  destruct (log_context_info (ec_context request) st) as [[e|[]] st2];
    cbn in Hlog; subst st2; reflexivity.
Qed.

(** X5. [get_session], [build_context] and the steps of [execute_chat]
    that come before the graph only read: whatever they answer, the
    database and the checkpoints are left as they were. *)
Theorem reading_handlers_keep_store now sid st context_request chat_request :
  (get_session now sid st).2 = st
  /\ (build_context context_request st).2 = st
  /\ (execute_chat_prepare chat_request st).2 = st.
Proof.
  split; [|split].
  - unfold get_session, get_session_body. unfold_m.
    destruct (chat_session st !! full_session_id sid); [reflexivity|].
    destruct on_missing; reflexivity.
  - unfold build_context, build_context_body. unfold_m.
    destruct (notebook st !! bc_notebook_id context_request) as [n|];
      [|destruct on_missing; reflexivity].
    destruct (config_truthy (bc_context_config context_request)); [reflexivity|].
    destruct (get_sources st n) as [e|srcs]; [destruct e; reflexivity|].
    destruct (get_notes st n) as [e|nts]; [destruct e; reflexivity|].
    reflexivity.
  - apply execute_chat_prepare_unchanged.
Qed.

End ChatMore.

(** ** Sessions: errors, counts and round trips *)
Section SessionMore.
Import Graph Chat.
Context `{Externals} `{DomainLayer}.

(** X6. A session that is not there. When the lookup raises
    [NotFoundError], every session endpoint answers 404 "Session not
    found". When the lookup returns [None], the endpoints raise that 404
    themselves, inside the [try] whose [except Exception] wraps it again:
    the client gets a 500 whose detail quotes the 404. Either way nothing
    is written. *)
Theorem session_not_found_status now sid st update_request chat_request :
  chat_session st !! full_session_id sid = None ->
  ec_session_id chat_request = sid ->
  (on_missing = RaisesNotFoundError ->
   get_session now sid st = (Fail 404 "Session not found", st)
   /\ update_session now sid update_request st = (Fail 404 "Session not found", st)
   /\ delete_session sid st = (Fail 404 "Session not found", st)
   /\ execute_chat now chat_request st = (Fail 404 "Session not found", st))
  /\ (on_missing = ReturnsNone ->
      get_session now sid st
      = (Fail 500 "Error fetching session: 404: Session not found", st)
      /\ update_session now sid update_request st
         = (Fail 500 "Error updating session: 404: Session not found", st)
      /\ delete_session sid st
         = (Fail 500 "Error deleting session: 404: Session not found", st)
      /\ execute_chat now chat_request st
         = (Fail 500 "Error executing chat: 404: Session not found", st)).
Proof.
  intros Hmiss Hsid.
  split; intros Hsig; repeat split;
    unfold get_session, get_session_body, update_session, update_session_body,
      delete_session, delete_session_body, execute_chat, execute_chat_body,
      execute_chat_prepare;
    rewrite ?Hsid; unfold_m; rewrite Hmiss, Hsig; reflexivity.
Qed.

Lemma to_chat_messages_length now msgs :
  List.length (to_chat_messages now msgs) = List.length msgs.
Proof. rewrite to_chat_messages_imap. apply length_imap. Qed.

(** X7. A session that exists is always served by [get_session]: the
    message count of the answer is the number of messages it lists, which
    is the number of messages checkpointed under the identifier as given
    (none when there is no checkpoint); the notebook id is the target of
    the first [refers_to] edge of the session, and is null, without any
    error, for a session that refers to no notebook. *)
Theorem get_session_counts now sid st session :
  chat_session st !! full_session_id sid = Some session ->
  exists a,
    get_session now sid st = (Ok a, st)
    /\ rs_message_count (rsm_session a) = Some (List.length (rsm_messages a))
    /\ List.length (rsm_messages a)
       = List.length (default [] (ts_messages <$> checkpoints st !! sid))
    /\ rs_notebook_id (rsm_session a)
       = head (select_out_where_in (refers_to st)
                 (ensure_record_id (full_session_id sid)))
    /\ rs_title (rsm_session a) = or_str (cs_title session) "Untitled Session".
Proof.
  intros Hs. unfold get_session, get_session_body. unfold_m. rewrite Hs.
  eexists. split; [reflexivity|]. cbn. repeat split.
  destruct (checkpoints st !! sid) as [values|]; cbn; [|reflexivity].
  apply to_chat_messages_length.
Qed.

(** X8. The log line about the first source slices its title. A chat
    request whose first source has a title that is [None] therefore never
    reaches the model: the endpoint answers 500 with Python's message for
    slicing [None], and nothing is written. *)
Theorem execute_chat_untitled_source now request st session custom first rest :
  chat_session st !! full_session_id (ec_session_id request) = Some session ->
  resolve_custom_system_prompt request
    (head (select_out_where_in (refers_to st)
             (ensure_record_id (full_session_id (ec_session_id request))))) st
  = (inr custom, st) ->
  cd_sources (ec_context request) = Some (first :: rest) ->
  sc_title first = Some PyNone ->
  execute_chat now request st
  = (Fail 500 "Error executing chat: 'NoneType' object is not subscriptable", st).
Proof.
  intros Hs Hres Hsrc Htitle.
  unfold execute_chat, execute_chat_body, execute_chat_prepare. unfold_m.
  rewrite Hs, Hres. unfold log_context_info. rewrite Hsrc.
  cbv beta iota delta [from_option id]. rewrite Htitle. reflexivity.
Qed.

Lemma startswith_full_session_id sid :
  startswith (full_session_id sid) "chat_session:" = true.
Proof.
  unfold full_session_id. destruct (startswith sid "chat_session:") eqn:Hp.
  - exact Hp.
  - apply startswith_append.
Qed.

(** X9. The normal form of a session identifier always carries the table
    prefix, an identifier that carries it is left alone, and two
    identifiers name the same session exactly when they are equal or one
    is bare and the other is its prefixed spelling. *)
Theorem full_session_id_normal_form (a b : string) :
  startswith (full_session_id a) "chat_session:" = true
  /\ (startswith a "chat_session:" = true -> full_session_id a = a)
  /\ (full_session_id a = full_session_id b
      <-> a = b
          \/ (startswith b "chat_session:" = false /\ a = "chat_session:" +:+ b)
          \/ (startswith a "chat_session:" = false /\ b = "chat_session:" +:+ a)).
Proof.
  split; [apply startswith_full_session_id|].
  split; [intros Hp; unfold full_session_id; by rewrite Hp|].
  unfold full_session_id.
  destruct (startswith a "chat_session:") eqn:Ha,
           (startswith b "chat_session:") eqn:Hb.
  - split; [auto|]. intros [Heq|[[Hf _]|[Hf _]]]; [exact Heq | discriminate..].
  - split; [auto|].
    intros [Heq|[[_ Heq]|[Hf _]]]; [|exact Heq|discriminate].
    subst b. rewrite Ha in Hb. discriminate.
  - split; [intros Heq; right; right; split; [reflexivity|by symmetry]|].
    intros [Heq|[[Hf _]|[_ Heq]]]; [|discriminate|by symmetry].
    subst b. rewrite Ha in Hb. discriminate.
  - split.
    + intros Heq. left. by apply (String.app_inj "chat_session:").
    + intros [Heq|[[_ Heq]|[_ Heq]]]; [by subst| |].
      * subst a. rewrite startswith_append in Ha. discriminate.
      * subst b. rewrite startswith_append in Hb. discriminate.
Qed.

End SessionMore.

Section SessionMoreRuns.
Import Graph Chat.

(** The statuses of a missing session, under either kind of lookup. *)
Lemma session_not_found_status_witness :
  chat_session Sample.store !! full_session_id "nope" = None
  /\ @get_session Sample.domain "2025-01-03" "nope" Sample.store
     = (Fail 404 "Session not found", Sample.store)
  /\ @get_session Sample.domain_none "2025-01-03" "nope" Sample.store
     = (Fail 500 "Error fetching session: 404: Session not found", Sample.store).
Proof.
  split; [reflexivity|]. split.
  - apply (proj1 (@session_not_found_status Sample.externals Sample.domain
                    "2025-01-03" "nope" Sample.store Cases.rename_request
                    (with_session_id "nope" Sample.chat_request) eq_refl eq_refl)).
    reflexivity.
  - apply (proj2 (@session_not_found_status Sample.externals Sample.domain_none
                    "2025-01-03" "nope" Sample.store Cases.rename_request
                    (with_session_id "nope" Sample.chat_request) eq_refl eq_refl)).
    reflexivity.
Defined.

(** The sample session, asked for with its bare identifier: it is served,
    with no message, since its thread was checkpointed under the other
    spelling. *)
Lemma get_session_counts_witness :
  chat_session Sample.store !! full_session_id "abc" = Some Sample.the_session
  /\ exists a,
       @get_session Sample.domain "2025-01-03" "abc" Sample.store
       = (Ok a, Sample.store)
       /\ rs_message_count (rsm_session a) = Some 0
       /\ rs_notebook_id (rsm_session a) = Some "notebook:n1".
Proof.
  split; [reflexivity|].
  destruct (@get_session_counts Sample.domain "2025-01-03" "abc" Sample.store
              Sample.the_session eq_refl)
    as (a & Hrun & Hcount & Hlen & Hnb & _).
  exists a. split; [exact Hrun|]. split.
  - rewrite Hcount, Hlen. reflexivity.
  - rewrite Hnb. reflexivity.
Defined.

Lemma execute_chat_untitled_source_witness :
  chat_session Sample.store !! full_session_id "abc" = Some Sample.the_session
  /\ sc_title Cases.untitled_source = Some PyNone
  /\ @execute_chat Sample.externals Sample.domain "2025-01-03"
       Cases.untitled_request Sample.store
     = (Fail 500 "Error executing chat: 'NoneType' object is not subscriptable",
        Sample.store).
Proof.
  split; [reflexivity|]. split; [reflexivity|].
  apply (@execute_chat_untitled_source Sample.externals Sample.domain
           "2025-01-03" Cases.untitled_request Sample.store Sample.the_session
           (Some "You are a pirate.") Cases.untitled_source []);
    reflexivity.
Defined.

Lemma full_session_id_normal_form_witness :
  startswith "abc" "chat_session:" = false
  /\ full_session_id "chat_session:abc" = full_session_id "abc".
Proof.
  split; [reflexivity|].
  apply (proj2 (proj2 (full_session_id_normal_form "chat_session:abc" "abc"))).
  right. left. split; reflexivity.
Defined.

End SessionMoreRuns.

(** ** Sessions: update and delete, followed by a read *)
Section SessionRoundTrips.
Import Graph Chat.
Context `{DomainLayer}.

Lemma update_session_run now sid request st session :
  chat_session st !! full_session_id sid = Some session ->
  cs_id session = Some (full_session_id sid) ->
  let saved :=
    {| cs_id := Some (full_session_id sid);
       cs_title := match usr_title request with
                   | Some t => t
                   | None => cs_title session
                   end;
       cs_model_override := match usr_model_override request with
                            | Some m => m
                            | None => cs_model_override session
                            end;
       cs_created := cs_created session;
       cs_updated := Some now |} in
  update_session now sid request st
  = (Ok {| rs_id := or_str (cs_id saved) "";
           rs_title := or_str (cs_title saved) "";
           rs_notebook_id :=
             head (select_out_where_in (refers_to st)
                     (ensure_record_id (full_session_id sid)));
           rs_created := str_opt (cs_created saved);
           rs_updated := now;
           rs_message_count := Some 0;
           rs_model_override := cs_model_override saved |},
     set_chat_session (<[full_session_id sid := saved]> (chat_session st)) st).
Proof.
  intros Hs Hid saved. unfold update_session, update_session_body, ChatSession_save.
  unfold_m. rewrite Hs.
  destruct session as [sid' t m c u]. cbn in Hid. subst sid'.
  subst saved. destruct (usr_title request) as [t'|], (usr_model_override request) as [m'|];
    reflexivity.
Qed.

(** X10. Updating a session and reading it back. Only the fields that the
    request sets change (a field set to null is cleared, a field left out
    keeps its stored value); the update answers an empty title as the
    empty string, while the following [get_session] shows it as "Untitled
    Session"; the model override and the refreshed update time are read
    back as written, and the relations and checkpoints are untouched. *)
Theorem update_then_get_session now later sid request st session :
  chat_session st !! full_session_id sid = Some session ->
  cs_id session = Some (full_session_id sid) ->
  let title :=
    match usr_title request with Some t => t | None => cs_title session end in
  let model :=
    match usr_model_override request with
    | Some m => m
    | None => cs_model_override session
    end in
  exists resp st1 a,
    update_session now sid request st = (Ok resp, st1)
    /\ rs_title resp = or_str title ""
    /\ rs_model_override resp = model
    /\ get_session later sid st1 = (Ok a, st1)
    /\ rs_title (rsm_session a) = or_str title "Untitled Session"
    /\ rs_model_override (rsm_session a) = model
    /\ rs_updated (rsm_session a) = now
    /\ rs_created (rsm_session a) = str_opt (cs_created session)
    /\ refers_to st1 = refers_to st
    /\ checkpoints st1 = checkpoints st.
Proof.
  intros Hs Hid title model.
  rewrite (update_session_run now sid request st session Hs Hid). cbv zeta.
  eexists _, _, _. split; [reflexivity|]. split; [reflexivity|]. split; [reflexivity|].
  unfold get_session, get_session_body. unfold_m.
  cbn [set_chat_session chat_session]. rewrite lookup_insert_eq.
  split; [reflexivity|]. repeat split.
Qed.

(** X11. Deleting a session and reading it back: the record is gone, every
    other session is still there, and the same identifier is from then on
    answered with 404 "Session not found". *)
Theorem delete_then_get_session later sid st session :
  chat_session st !! full_session_id sid = Some session ->
  cs_id session = Some (full_session_id sid) ->
  exists st1,
    delete_session sid st = (Ok "Session deleted successfully", st1)
    /\ chat_session st1 !! full_session_id sid = None
    /\ (forall other, other <> full_session_id sid ->
        chat_session st1 !! other = chat_session st !! other)
    /\ (on_missing = RaisesNotFoundError ->
        get_session later sid st1 = (Fail 404 "Session not found", st1)
        /\ delete_session sid st1 = (Fail 404 "Session not found", st1)).
Proof.
  intros Hs Hid. unfold delete_session, delete_session_body, ChatSession_delete.
  unfold_m. rewrite Hs, Hid. cbn [default from_option id].
  eexists. split; [reflexivity|].
  cbn [set_chat_session chat_session]. split; [apply lookup_delete_eq|].
  split; [intros other Hne; by apply lookup_delete_ne|].
  intros Hsig. unfold get_session, get_session_body. unfold_m.
  cbn [set_chat_session chat_session]. rewrite lookup_delete_eq, Hsig.
  split; reflexivity.
Qed.

End SessionRoundTrips.

Section SessionRoundTripRuns.
Import Graph Chat.

(** Renaming the sample session and reading it back. *)
Lemma update_then_get_session_witness :
  chat_session Sample.store !! full_session_id "abc" = Some Sample.the_session
  /\ cs_id Sample.the_session = Some (full_session_id "abc")
  /\ exists resp st1 a,
       @update_session Sample.domain "2025-01-04" "abc" Cases.rename_request
         Sample.store = (Ok resp, st1)
       /\ @get_session Sample.domain "2025-01-05" "abc" st1 = (Ok a, st1)
       /\ rs_title (rsm_session a) = "Renamed"
       /\ rs_updated (rsm_session a) = "2025-01-04".
Proof.
  split; [reflexivity|]. split; [reflexivity|].
  destruct (@update_then_get_session Sample.domain
              "2025-01-04" "2025-01-05" "abc" Cases.rename_request Sample.store
              Sample.the_session eq_refl eq_refl)
    as (resp & st1 & a & Hup & _ & _ & Hget & Htitle & _ & Hupdated & _).
  exists resp, st1, a. split; [exact Hup|]. split; [exact Hget|].
  split; [rewrite Htitle; reflexivity | exact Hupdated].
Defined.

(** Deleting the sample session and asking for it again. *)
Lemma delete_then_get_session_witness :
  chat_session Sample.store !! full_session_id "abc" = Some Sample.the_session
  /\ cs_id Sample.the_session = Some (full_session_id "abc")
  /\ exists st1,
       @delete_session Sample.domain "abc" Sample.store
       = (Ok "Session deleted successfully", st1)
       /\ @get_session Sample.domain "2025-01-05" "abc" st1
          = (Fail 404 "Session not found", st1).
Proof.
  split; [reflexivity|]. split; [reflexivity|].
  destruct (@delete_then_get_session Sample.domain
              "2025-01-05" "abc" Sample.store Sample.the_session eq_refl eq_refl)
    as (st1 & Hdel & _ & _ & Hget).
  exists st1. split; [exact Hdel|]. apply Hget. reflexivity.
Defined.

End SessionRoundTripRuns.

(** ** More on context selection *)
Section ContextMore.
Import Graph Chat Repeated.
Context `{DomainLayer}.

Lemma startswith_full_source_id id : startswith (full_source_id id) "source:" = true.
Proof.
  unfold full_source_id. destruct (startswith id "source:") eqn:Hp;
    [exact Hp | apply startswith_append].
Qed.

Lemma startswith_full_note_id id : startswith (full_note_id id) "note:" = true.
Proof.
  unfold full_note_id. destruct (startswith id "note:") eqn:Hp;
    [exact Hp | apply startswith_append].
Qed.

Lemma source_contribution_prefixed st id status :
  source_contribution st (full_source_id id, status) = source_contribution st (id, status).
Proof.
  unfold source_contribution, process_source.
  rewrite startswith_full_source_id. reflexivity.
Qed.

Lemma note_contribution_prefixed st id status :
  note_contribution st (full_note_id id, status) = note_contribution st (id, status).
Proof.
  unfold note_contribution, process_note.
  rewrite startswith_full_note_id. reflexivity.
Qed.

Lemma omap_prefixed_sources st (l : list (string * string)) :
  omap (source_contribution st) ((fun entry => (full_source_id entry.1, entry.2)) <$> l)
  = omap (source_contribution st) l.
Proof.
  induction l as [|[id status] l IH]; [reflexivity|].
  cbn [fmap list_fmap fst snd].
  rewrite !omap_cons_option_list, IH, source_contribution_prefixed. reflexivity.
Qed.

Lemma omap_prefixed_notes st (l : list (string * string)) :
  omap (note_contribution st) ((fun entry => (full_note_id entry.1, entry.2)) <$> l)
  = omap (note_contribution st) l.
Proof.
  induction l as [|[id status] l IH]; [reflexivity|].
  cbn [fmap list_fmap fst snd].
  rewrite !omap_cons_option_list, IH, note_contribution_prefixed. reflexivity.
Qed.

Lemma build_context_missing request st :
  notebook st !! bc_notebook_id request = None ->
  build_context request st
  = match on_missing with
    | ReturnsNone => (Fail 404 "Notebook not found", st)
    | RaisesNotFoundError =>
        (Fail 500 ("Error building context: "
                   +:+ not_found_message (bc_notebook_id request)), st)
    end.
Proof.
  intros Hmiss. unfold build_context, build_context_body. unfold_m.
  rewrite Hmiss. destruct on_missing; reflexivity.
Qed.

(** X12. In a context configuration a source or note may be named with or
    without its table prefix. When no two ids of the configuration come
    out the same once prefixed, so that the all-prefixed configuration is
    again a dictionary with one entry per id, writing every id with its
    prefix changes nothing in the answer. *)
Theorem build_context_prefixed_ids request sources notes prefixed_s prefixed_n st :
  prefixed_sources sources = Some prefixed_s ->
  prefixed_notes notes = Some prefixed_n ->
  build_context (with_sources prefixed_s (with_notes prefixed_n request)) st
  = build_context (with_sources sources (with_notes notes request)) st.
Proof.
  unfold prefixed_sources, prefixed_notes.
  case_decide as Hs; [|discriminate]. case_decide as Hnt; [|discriminate].
  intros [= <-] [= <-].
  destruct (notebook st !! bc_notebook_id request) as [n|] eqn:Hn.
  - rewrite !(build_context_configured _ st n); try exact Hn; try reflexivity.
    cbn [with_sources with_notes bc_context_config cc_sources cc_notes default
         from_option id].
    by rewrite omap_prefixed_sources, omap_prefixed_notes.
  - rewrite !build_context_missing; try exact Hn. reflexivity.
Qed.

Lemma omap_all_none {A B : Type} (f : A -> option B) (l : list A) :
  Forall (fun x => f x = None) l -> omap f l = [].
Proof.
  induction 1 as [|x l Hx _ IH]; [reflexivity|].
  by rewrite omap_cons_option_list, Hx, IH.
Qed.

(** X13. A configuration that is given but selects nothing (it is empty
    under "sources" and "notes", or every status contains "not in") gives
    an empty context with no characters and no tokens, whether or not the
    token counter could be imported; it does not fall back to the whole
    notebook. *)
Theorem build_context_nothing_selected request st n :
  notebook st !! bc_notebook_id request = Some n ->
  config_truthy (bc_context_config request) = true ->
  Forall (fun entry => contains "not in" entry.2 = true)
         (default [] (cc_sources (bc_context_config request))) ->
  Forall (fun entry => contains "not in" entry.2 = true)
         (default [] (cc_notes (bc_context_config request))) ->
  build_context request st
  = (Ok {| br_sources := []; br_notes := []; br_token_count := 0; br_char_count := 0 |},
     st).
Proof.
  intros Hn Hcfg Hsrc Hnts.
  rewrite (build_context_configured request st n Hn Hcfg).
  rewrite (omap_all_none (source_contribution st)), (omap_all_none (note_contribution st)).
  - unfold counted. cbn. destruct token_count; reflexivity.
  - eapply Forall_impl; [exact Hnts|]. intros [id status] Hni.
    apply (contribution_none_not_in st id status Hni).
  - eapply Forall_impl; [exact Hsrc|]. intros [id status] Hni.
    apply (contribution_none_not_in st id status Hni).
Qed.

End ContextMore.

Section ContextMoreRuns.
Import Graph Chat.

(** The sample source and note, named bare and then with their prefixes. *)
Lemma build_context_prefixed_ids_witness :
  @Repeated.prefixed_sources [("s1", "insights")] = Some [("source:s1", "insights")]
  /\ @Repeated.prefixed_notes [("n1", "full content")] = Some [("note:n1", "full content")]
  /\ @Repeated.prefixed_sources [("s1", "insights"); ("source:s1", "full content")] = None
  /\ @build_context Sample.domain
       (with_sources [("source:s1", "insights")]
          (with_notes [("note:n1", "full content")] Sample.context_request))
       Sample.store
     = @build_context Sample.domain
         (with_sources [("s1", "insights")]
            (with_notes [("n1", "full content")] Sample.context_request))
         Sample.store.
Proof.
  split; [reflexivity|]. split; [reflexivity|]. split; [reflexivity|].
  apply (@build_context_prefixed_ids Sample.domain Sample.context_request
           [("s1", "insights")] [("n1", "full content")]); reflexivity.
Defined.

Lemma build_context_nothing_selected_witness :
  notebook Sample.store !! "notebook:n1" = Some Sample.the_notebook
  /\ config_truthy (bc_context_config CasesContext.excluding_request) = true
  /\ @build_context Sample.domain CasesContext.excluding_request Sample.store
     = (Ok {| br_sources := []; br_notes := []; br_token_count := 0;
              br_char_count := 0 |}, Sample.store).
Proof.
  split; [reflexivity|]. split; [reflexivity|].
  apply (@build_context_nothing_selected Sample.domain
           CasesContext.excluding_request Sample.store Sample.the_notebook);
    try reflexivity; repeat constructor.
Defined.

End ContextMoreRuns.

(** ** More on the notebook endpoints *)
Section NotebookMore.
Import Notebooks Repeated Chat.
Context `{DomainLayer}.

(** X14. A notebook that is not there, as [add_source_to_notebook],
    [remove_source_from_notebook] and [build_context] report it. These
    handlers re-raise their own [HTTPException] and have no clause for
    [NotFoundError]: a lookup that returns [None] gives 404 "Notebook not
    found", a lookup that raises [NotFoundError] gives a 500 that quotes
    the error. Nothing is written. *)
Theorem notebook_not_found_status nb src st request :
  notebook st !! nb = None ->
  bc_notebook_id request = nb ->
  (on_missing = ReturnsNone ->
   add_source_to_notebook nb src st = (Fail 404 "Notebook not found", st)
   /\ remove_source_from_notebook nb src st = (Fail 404 "Notebook not found", st)
   /\ build_context request st = (Fail 404 "Notebook not found", st))
  /\ (on_missing = RaisesNotFoundError ->
      add_source_to_notebook nb src st
      = (Fail 500 ("Error linking source to notebook: " +:+ not_found_message nb), st)
      /\ remove_source_from_notebook nb src st
         = (Fail 500 ("Error removing source from notebook: " +:+ not_found_message nb),
            st)
      /\ build_context request st
         = (Fail 500 ("Error building context: " +:+ not_found_message nb), st)).
Proof.
  intros Hmiss Hreq.
  split; intros Hsig; repeat split;
    unfold add_source_to_notebook, add_source_to_notebook_body,
      remove_source_from_notebook, remove_source_from_notebook_body,
      build_context, build_context_body;
    rewrite ?Hreq; unfold_m; rewrite Hmiss, Hsig; reflexivity.
Qed.



(** X16. Where no reference edge leads from the notebook to the source
    (and the two record ids differ), [add_source_to_notebook] links the
    pair anew at every call: after [k] calls the source has [k] more
    reference edges to the notebook than before. *)
Theorem add_source_times_links k nb src st n s :
  notebook st !! nb = Some n ->
  source st !! src = Some s ->
  ensure_record_id src <> ensure_record_id nb ->
  Forall (fun e => ~ (edge_out e = ensure_record_id src
                      /\ edge_in e = ensure_record_id nb)) (reference st) ->
  List.length (source_edges (add_source_times k nb src st) nb src)
  = List.length (source_edges st nb src) + k.
Proof.
  intros Hn Hs Hne. revert st Hn Hs.
  induction k as [|k IH]; intros st Hn Hs Hnone.
  - cbn. lia.
  - cbn [add_source_times].
    rewrite (add_source_ignores_links st nb src n s Hn Hs Hnone). cbn [snd].
    rewrite IH; try assumption.
    + unfold source_edges, relate. cbn [set_reference reference].
      rewrite filter_app, length_app, filter_cons, decide_True by (split; reflexivity).
      cbn. lia.
    + cbn [set_reference reference]. unfold relate. apply Forall_app. split; [exact Hnone|].
      constructor; [|constructor]. cbn. intros [Hout _]. apply Hne. by symmetry.
Qed.

End NotebookMore.

Section NotebookMoreRuns.
Import Notebooks Repeated Chat.

Lemma notebook_not_found_status_witness :
  notebook Sample.store !! "notebook:none" = None
  /\ @add_source_to_notebook Sample.domain_none "notebook:none" "source:s1" Sample.store
     = (Fail 404 "Notebook not found", Sample.store)
  /\ @add_source_to_notebook Sample.domain "notebook:none" "source:s1" Sample.store
     = (Fail 500 "Error linking source to notebook: notebook:none not found",
        Sample.store).
Proof.
  split; [reflexivity|]. split.
  - apply (proj1 (@notebook_not_found_status Sample.domain_none "notebook:none"
                    "source:s1" Sample.store CasesContext.missing_notebook_request
                    eq_refl eq_refl)).
    reflexivity.
  - apply (proj2 (@notebook_not_found_status Sample.domain "notebook:none"
                    "source:s1" Sample.store CasesContext.missing_notebook_request
                    eq_refl eq_refl)).
    reflexivity.
Defined.


(** Three calls on the sample store: three edges. *)
Lemma add_source_times_links_witness :
  notebook Sample.store !! "notebook:n1" = Some Sample.the_notebook
  /\ source Sample.store !! "source:s1" = Some Sample.the_source
  /\ List.length
       (@source_edges Sample.domain
          (@add_source_times Sample.domain 3 "notebook:n1" "source:s1" Sample.store)
          "notebook:n1" "source:s1") = 3.
Proof.
  split; [reflexivity|]. split; [reflexivity|].
  rewrite (@add_source_times_links Sample.domain 3 "notebook:n1" "source:s1"
             Sample.store Sample.the_notebook Sample.the_source);
    [reflexivity | reflexivity | reflexivity | discriminate | constructor].
Defined.

End NotebookMoreRuns.

(** ** The notebook listing *)
Section ListingFacts.
Import NotebookList.

Lemma filter_three_way (rows : list NotebookRow) :
  List.length (filter (fun nb => row_archived nb = Some true) rows)
  + List.length (filter (fun nb => row_archived nb = Some false) rows)
  + List.length (filter (fun nb => row_archived nb = None) rows)
  = List.length rows.
Proof.
  induction rows as [|nb rows IH]; [reflexivity|].
  rewrite !filter_cons.
  destruct (row_archived nb) as [[|]|] eqn:Ha;
    repeat case_decide; try congruence; cbn; lia.
Qed.

(** X17. The [archived] filter of the notebook listing. Without it every
    row is listed, in the order of the query. With it the listing is a
    sub-list of the unfiltered one and holds only notebooks whose
    [archived] is the value asked for. A row without an "archived" key is
    listed as not archived, yet neither [archived=false] nor
    [archived=true] finds it: the two filtered listings and the rows
    without the key add up to the whole. *)
Theorem get_notebooks_archived (rows : list NotebookRow) :
  get_notebooks None rows = to_response <$> rows
  /\ (forall b, get_notebooks (Some b) rows `sublist_of` get_notebooks None rows)
  /\ (forall b r, r ∈ get_notebooks (Some b) rows -> nr_archived r = b)
  /\ (forall b nb, nb ∈ rows -> row_archived nb = None ->
        nr_archived (to_response nb) = false
        /\ nb ∉ archived_filter (Some b) rows)
  /\ List.length (get_notebooks (Some true) rows)
     + List.length (get_notebooks (Some false) rows)
     + List.length (filter (fun nb => row_archived nb = None) rows)
     = List.length (get_notebooks None rows).
Proof.
  unfold get_notebooks, archived_filter.
  split; [reflexivity|]. split; [|split; [|split]].
  - intros b. apply fmap_sublist, sublist_filter.
  - intros b r Hr. apply list_elem_of_fmap in Hr as (nb & -> & Hnb).
    apply list_elem_of_filter in Hnb as [Ha _].
    unfold to_response. cbn. by rewrite Ha.
  - intros b nb Hin Hnone. split.
    + unfold to_response. cbn. by rewrite Hnone.
    + rewrite list_elem_of_filter. intros [Ha _]. congruence.
  - rewrite !length_fmap. apply filter_three_way.
Qed.

End ListingFacts.

(** ** The source-creation request, validated twice *)
Section SourceCreateMore.
Import Models.

(** X18. An accepted source-creation request always carries a notebook
    list. The legacy [notebook_id] is kept beside the list it was turned
    into, so validating the normalised request once more rejects it for
    naming both fields; a request made without [notebook_id] passes the
    validator again unchanged. *)
Theorem validate_notebook_fields_again (r r' : SourceCreate) :
  validate_notebook_fields r = inr r' ->
  is_Some (notebooks r')
  /\ notebook_id r' = notebook_id r
  /\ (notebook_id r = None -> validate_notebook_fields r' = inr r')
  /\ (forall nb, notebook_id r = Some nb ->
        notebooks r' = Some [nb]
        /\ validate_notebook_fields r' = inl (ValueError both_fields_message)).
Proof.
  destruct r as [nid nbs ty u fp c t tr e d a]. unfold validate_notebook_fields.
  cbn. destruct nid as [nb|], nbs as [l|]; cbn; intros [= <-]; cbn;
    (split; [by eexists|]); (split; [reflexivity|]);
    (split; [intros; try discriminate; reflexivity|]);
    intros nb' [= <-] || intros nb' [=]; split; reflexivity.
Qed.

End SourceCreateMore.

Section ListingRuns.
Import NotebookList Models.

Lemma get_notebooks_archived_witness :
  CasesNotebooks.row "notebook:n3" None ∈ CasesNotebooks.rows
  /\ nr_archived (to_response (CasesNotebooks.row "notebook:n3" None)) = false
  /\ List.length (get_notebooks None CasesNotebooks.rows) = 3
  /\ nr_id <$> get_notebooks (Some false) CasesNotebooks.rows = ["notebook:n1"]
  /\ CasesNotebooks.row "notebook:n3" None
     ∉ archived_filter (Some false) CasesNotebooks.rows.
Proof.
  assert (Hin : CasesNotebooks.row "notebook:n3" None ∈ CasesNotebooks.rows).
  { apply list_elem_of_further, list_elem_of_further, list_elem_of_here. }
  split; [exact Hin|].
  destruct (get_notebooks_archived CasesNotebooks.rows) as (_ & _ & _ & Hnone & _).
  destruct (Hnone false _ Hin eq_refl) as [Hshown Hhidden].
  split; [exact Hshown|]. split; [reflexivity|]. split; [reflexivity|]. exact Hhidden.
Defined.

Lemma validate_notebook_fields_again_witness :
  validate_notebook_fields CasesNotebooks.legacy_source
  = inr (set_notebooks ["notebook:n1"] CasesNotebooks.legacy_source)
  /\ validate_notebook_fields
       (set_notebooks ["notebook:n1"] CasesNotebooks.legacy_source)
     = inl (ValueError both_fields_message).
Proof.
  split; [reflexivity|].
  apply (proj2 (proj2 (proj2 (validate_notebook_fields_again
           CasesNotebooks.legacy_source
           (set_notebooks ["notebook:n1"] CasesNotebooks.legacy_source) eq_refl)))
           "notebook:n1" eq_refl).
Defined.

End ListingRuns.

(** ** A created session, read back *)
Section CreateThenGet.
Import Graph Chat.
Context `{DomainLayer}.

Lemma or_str_truthy s d : str_truthy s = true -> or_str (Some s) d = s.
Proof. intros Hs. unfold or_str. cbn. by rewrite Hs. Qed.

Lemma new_title_truthy title loop_time :
  str_truthy (or_str title ("Chat Session " +:+ loop_time)) = true.
Proof.
  unfold or_str. destruct (truthy title) eqn:Ht; [|reflexivity].
  destruct title as [s|]; [exact Ht | discriminate].
Qed.

Lemma create_session_run now loop_time request st n :
  notebook st !! csr_notebook_id request = Some n ->
  let saved :=
    {| cs_id := Some (new_session_id st);
       cs_title := Some (or_str (csr_title request) ("Chat Session " +:+ loop_time));
       cs_model_override := csr_model_override request;
       cs_created := Some now; cs_updated := Some now |} in
  create_session now loop_time request st
  = (Ok {| rs_id := new_session_id st;
           rs_title := or_str (csr_title request) ("Chat Session " +:+ loop_time);
           rs_notebook_id := Some (csr_notebook_id request);
           rs_created := now;
           rs_updated := now;
           rs_message_count := Some 0;
           rs_model_override := csr_model_override request |},
     set_refers_to
       (relate (refers_to st) (ensure_record_id (new_session_id st))
          (ensure_record_id (csr_notebook_id request)))
       (set_chat_session (<[new_session_id st := saved]> (chat_session st)) st)).
Proof.
  intros Hn saved. unfold create_session, create_session_body, ChatSession_save,
    relate_to_notebook.
  unfold_m. rewrite Hn. cbn.
  rewrite or_str_Some_empty, (or_str_truthy _ _ (new_title_truthy _ _)).
  reflexivity.
Qed.

(** X19. A session that was just created can be read back under the id
    that [create_session] answered, when that id carries the table prefix
    and no [refers_to] edge started from it before: [get_session] finds
    it, with the title and the model override of the creation answer, the
    notebook it was created for, and no more messages than were
    checkpointed under that id. *)
Theorem create_then_get_session now later loop_time request st n :
  notebook st !! csr_notebook_id request = Some n ->
  startswith (new_session_id st) "chat_session:" = true ->
  Forall (fun e => edge_in e <> ensure_record_id (new_session_id st)) (refers_to st) ->
  exists resp st1 a,
    create_session now loop_time request st = (Ok resp, st1)
    /\ get_session later (rs_id resp) st1 = (Ok a, st1)
    /\ rs_id (rsm_session a) = rs_id resp
    /\ rs_title (rsm_session a) = rs_title resp
    /\ rs_model_override (rsm_session a) = csr_model_override request
    /\ rs_notebook_id (rsm_session a)
       = Some (ensure_record_id (csr_notebook_id request))
    /\ rs_created (rsm_session a) = now.
Proof.
  intros Hn Hprefix Hfresh.
  rewrite (create_session_run now loop_time request st n Hn). cbv zeta.
  eexists _, _, _. split; [reflexivity|]. cbn [rs_id rs_title].
  assert (Hfull : full_session_id (new_session_id st) = new_session_id st).
  { unfold full_session_id. by rewrite Hprefix. }
  assert (Hquery :
    head (select_out_where_in
            (relate (refers_to st) (ensure_record_id (new_session_id st))
               (ensure_record_id (csr_notebook_id request)))
            (ensure_record_id (new_session_id st)))
    = Some (ensure_record_id (csr_notebook_id request))).
  { unfold select_out_where_in, relate. rewrite filter_app.
    replace (filter _ (refers_to st)) with (@nil Edge).
    - rewrite filter_cons, decide_True by reflexivity. reflexivity.
    - symmetry. clear -Hfresh. induction Hfresh as [|e l He _ IH]; [reflexivity|].
      rewrite filter_cons, decide_False by exact He. exact IH. }
  unfold get_session, get_session_body. unfold_m. rewrite Hfull.
  cbn [set_refers_to set_chat_session chat_session refers_to checkpoints].
  rewrite lookup_insert_eq. cbv beta iota.
  cbn [set_refers_to set_chat_session chat_session refers_to checkpoints].
  rewrite Hquery.
  split; [reflexivity|]. cbn.
  rewrite or_str_Some_empty, (or_str_truthy _ _ (new_title_truthy _ _)).
  repeat split.
Qed.

End CreateThenGet.

Section CreateThenGetRuns.
Import Graph Chat.

Lemma create_then_get_session_witness :
  notebook Sample.store !! "notebook:n1" = Some Sample.the_notebook
  /\ startswith (@new_session_id Sample.domain Sample.store) "chat_session:" = true
  /\ exists resp st1 a,
       @create_session Sample.domain "2025-01-03" "42" Sample.create_request
         Sample.store = (Ok resp, st1)
       /\ @get_session Sample.domain "2025-01-04" (rs_id resp) st1 = (Ok a, st1)
       /\ rs_notebook_id (rsm_session a) = Some "notebook:n1"
       /\ rs_model_override (rsm_session a) = Some "model:fast".
Proof.
  split; [reflexivity|]. split; [reflexivity|].
  destruct (@create_then_get_session Sample.domain "2025-01-03" "2025-01-04" "42"
              Sample.create_request Sample.store Sample.the_notebook
              eq_refl eq_refl)
    as (resp & st1 & a & Hcreate & Hget & _ & _ & Hmodel & Hnb & _).
  { repeat constructor. discriminate. }
  exists resp, st1, a. split; [exact Hcreate|]. split; [exact Hget|].
  split; [exact Hnb | exact Hmodel].
Defined.

End CreateThenGetRuns.

Section UncitedRuns.
Import Graph Uncited.

(** Two thread states that differ in the id of their source only. *)
Lemma uncited_prompt_ignores_ids_witness :
  get_include_citations Cases.plain_thread_state = false
  /\ Cases.plain_thread_state <> Cases.renumbered_thread_state
  /\ @system_prompt Sample.externals Cases.plain_thread_state
     = @system_prompt Sample.externals Cases.renumbered_thread_state.
Proof.
  split; [reflexivity|]. split; [discriminate|].
  apply (@uncited_prompt_ignores_ids Sample.externals); reflexivity.
Defined.

(** The default prompt without citations over the sample context. *)
Lemma default_uncited_system_prompt_witness :
  truthy (ts_custom_system_prompt Cases.plain_thread_state) = false
  /\ get_include_citations Cases.plain_thread_state = false
  /\ @system_prompt Sample.externals Cases.plain_thread_state
     = "You are a helpful AI assistant. Use the context information below to answer questions accurately."
       +:+ NL +:+ NL +:+ "# Context Information" +:+ NL
       +:+ source_section false Sample.source_context
       +:+ note_section false Sample.note_context
       +:+ NL +:+ NL
       +:+ "Please provide your answers based on the context provided. Respond naturally without including document references or IDs.".
Proof.
  split; [reflexivity|]. split; [reflexivity|].
  destruct (@default_uncited_system_prompt Sample.externals Cases.plain_thread_state
              eq_refl eq_refl) as [Hfull _].
  rewrite Hfull; [reflexivity | left; discriminate].
Defined.

End UncitedRuns.

(** ** The custom-prompt system message, as it reads *)
Section LayoutFacts.
Import Graph Layout.
Context `{Externals}.

Lemma py_format_shown (field : option pyval) (missing : string) :
  py_format (dict_get field missing) = shown field missing.
Proof. destruct field as [[text|]|]; reflexivity. Qed.

Lemma id_tag_shown cit id : id_tag cit id = id_shown cit id.
Proof. unfold id_tag, id_shown. destruct cit; [|reflexivity]. by rewrite py_format_shown. Qed.

Lemma insight_section_text cit i : insight_section cit i = insight_text cit i.
Proof.
  unfold insight_section, insight_text. by rewrite !py_format_shown, id_tag_shown.
Qed.

Lemma source_section_text cit s : source_section cit s = source_text cit s.
Proof.
  unfold source_section, source_text, full_text_section.
  rewrite py_format_shown, id_tag_shown.
  replace (insight_section cit <$> default [] (sc_insights s))
    with (insight_text cit <$> default [] (sc_insights s)).
  - destruct (sc_full_text s) as [text|]; [|reflexivity].
    by rewrite <- (py_format_shown (Some text) "").
  - apply list_fmap_ext. intros _ i _. symmetry. apply insight_section_text.
Qed.

Lemma note_section_text cit n : note_section cit n = note_text cit n.
Proof.
  unfold note_section, note_text. by rewrite !py_format_shown, id_tag_shown.
Qed.

(** C2. With a non-empty custom prompt and a context that holds at least
    one source or note, the system message is the custom prompt, the role
    reminder and the context heading, then one section per source in order
    (its title, its full text when present, then each insight with its
    type and content), then one section per note (title and content), and
    last the citing instructions exactly when [include_citations] is true;
    the document IDs are shown under the same condition. With no source
    and no note the message is the custom prompt and the role reminder
    only. *)
Theorem custom_system_prompt_layout (state : ThreadState) (custom : string) :
  ts_custom_system_prompt state = Some custom ->
  custom <> "" ->
  let cit := get_include_citations state in
  let sources := sources_of (ts_context state) in
  let notes := notes_of (ts_context state) in
  (sources <> [] \/ notes <> [] ->
   system_prompt state
   = custom +:+ NL +:+ NL +:+ role_reminder +:+ NL +:+ NL
     +:+ "# Context Information" +:+ NL
     +:+ join (source_text cit <$> sources)
     +:+ join (note_text cit <$> notes)
     +:+ NL +:+ (if cit then citing_instructions else ""))
  /\ (sources = [] -> notes = [] ->
      system_prompt state = custom +:+ NL +:+ NL +:+ role_reminder).
Proof.
  intros Hc Hne cit sources notes.
  destruct (custom_system_prompt_sections state custom Hc Hne) as [Hfull Hbare].
  fold cit sources notes in Hfull, Hbare. split.
  - intros Hctx. rewrite (Hfull Hctx). unfold context_header.
    replace (source_section cit <$> sources) with (source_text cit <$> sources)
      by (apply list_fmap_ext; intros _ s _; symmetry; apply source_section_text).
    replace (note_section cit <$> notes) with (note_text cit <$> notes)
      by (apply list_fmap_ext; intros _ n _; symmetry; apply note_section_text).
    rewrite !append_assoc. reflexivity.
  - intros Hs Hn. exact (Hbare Hs Hn).
Qed.

End LayoutFacts.

Section LayoutRuns.
Import Graph Layout.

(** The pirate prompt over the sample source and note, word for word:
    citations off, citations on, and over a context that lists nothing. *)
Lemma custom_system_prompt_layout_witness :
  @system_prompt Sample.externals Sample.thread_state
  = "You are a pirate." +:+ NL +:+ NL
    +:+ "IMPORTANT: You must follow the role and behavior described above in your current response, regardless of what role you may have taken in previous messages."
    +:+ NL +:+ NL
    +:+ "# Context Information" +:+ NL
    +:+ NL +:+ NL +:+ "## Source: Paper" +:+ NL
    +:+ NL +:+ "### Full Content" +:+ NL +:+ "Body." +:+ NL
    +:+ NL +:+ "### Summary" +:+ NL +:+ "Short." +:+ NL
    +:+ NL +:+ NL +:+ "## Note: Memo" +:+ NL +:+ "Remember." +:+ NL
    +:+ NL
  /\ @system_prompt Sample.externals cited_thread_state
     = "You are a pirate." +:+ NL +:+ NL
       +:+ "IMPORTANT: You must follow the role and behavior described above in your current response, regardless of what role you may have taken in previous messages."
       +:+ NL +:+ NL
       +:+ "# Context Information" +:+ NL
       +:+ NL +:+ NL +:+ "## Source: Paper [ID: source:s1]" +:+ NL
       +:+ NL +:+ "### Full Content" +:+ NL +:+ "Body." +:+ NL
       +:+ NL +:+ "### Summary [ID: source_insight:i1]" +:+ NL +:+ "Short." +:+ NL
       +:+ NL +:+ NL +:+ "## Note: Memo [ID: note:n1]" +:+ NL +:+ "Remember." +:+ NL
       +:+ NL
       +:+ NL +:+ "# CITING INSTRUCTIONS" +:+ NL
       +:+ "If your answer is based on any item in the context above, add references to the documents by including the document ID in brackets like this: [document_id]."
       +:+ NL +:+ NL
       +:+ "Example: According to the regulations [source_insight:abc123], cosmetic labeling must include..."
       +:+ NL +:+ NL
       +:+ "IMPORTANT:" +:+ NL
       +:+ "- Use document IDs exactly as provided in the context" +:+ NL
       +:+ "- IDs have prefixes like " +:+ DQ +:+ "source:" +:+ DQ +:+ ", "
       +:+ DQ +:+ "source_insight:" +:+ DQ +:+ ", " +:+ DQ +:+ "note:" +:+ DQ +:+ NL
       +:+ "- Do not make up or modify document IDs" +:+ NL
  /\ @system_prompt Sample.externals bare_thread_state
     = "You are a pirate." +:+ NL +:+ NL
       +:+ "IMPORTANT: You must follow the role and behavior described above in your current response, regardless of what role you may have taken in previous messages.".
Proof.
  split; [|split].
  - destruct (@custom_system_prompt_layout Sample.externals Sample.thread_state
                "You are a pirate." eq_refl ltac:(discriminate)) as [Hfull _].
    rewrite Hfull; [reflexivity | left; discriminate].
  - destruct (@custom_system_prompt_layout Sample.externals cited_thread_state
                "You are a pirate." eq_refl ltac:(discriminate)) as [Hfull _].
    rewrite Hfull; [reflexivity | left; discriminate].
  - destruct (@custom_system_prompt_layout Sample.externals bare_thread_state
                "You are a pirate." eq_refl ltac:(discriminate)) as [_ Hbare].
    rewrite Hbare; reflexivity.
Defined.

End LayoutRuns.
